(** * JNI thread-attachment helpers of the native detector

    A shallow embedding of [app/src/main/cpp/jni_thread_helper.cpp] and
    [app/src/main/cpp/jni_thread_helper.hpp]: the process-wide [g_jvm]
    pointer, the load entry point [JNI_OnLoad], the three
    [JNIThreadManager] entry points, the RAII class [JNIThreadHelper] and
    the template method [ThreadSafeDetector::detectWithThreadSafety].

    The code talks to a Java virtual machine through the JNI invocation
    interface ([GetEnv], [AttachCurrentThread], [DetachCurrentThread]) and
    to the Android log.  Both are outside the repository; they are modelled
    in [Module JNI] and [Module AndroidLog] after their public
    documentation, and the embedded functions thread a [World] that holds
    the global pointer, the virtual machine, the log and the list of
    invocation-interface calls made so far. *)

From stdpp Require Import base gmap list strings.
From Stdlib Require Import ZArith.

Local Open Scope Z_scope.
Local Open Scope string_scope.
Local Open Scope list_scope.

(** ** Pointers *)

(** A C++ object pointer is the address it holds; [nullptr] is address 0,
    and [if (!p)] tests for it. *)
Definition pointer : Type := N.
Definition nullptr : pointer := 0%N.
Definition is_null (p : pointer) : bool := N.eqb p 0%N.

(** Threads of the process, by identifier. *)
Abbreviation Thread := nat (only parsing).

(** ** The JNI invocation interface (jni.h) *)

Module JNI.

Definition jint : Type := Z.
Definition jboolean : Type := Z.

Definition JNI_FALSE : jboolean := 0.
Definition JNI_TRUE : jboolean := 1.

Definition JNI_OK : jint := 0.
Definition JNI_ERR : jint := -1.
Definition JNI_EDETACHED : jint := -2.
Definition JNI_EVERSION : jint := -3.

Definition JNI_VERSION_1_2 : jint := 0x00010002.
Definition JNI_VERSION_1_4 : jint := 0x00010004.
Definition JNI_VERSION_1_6 : jint := 0x00010006.

(** The virtual machine a non-null [JavaVM*] of the process points to.
    The per-thread attachment state lives here, not in the module. *)
Record JavaVM : Type := mkJavaVM {
  attached_threads : gset Thread;
    (** the threads that currently have a JNI environment *)
  supported_versions : list jint;
    (** the interface versions [GetEnv] can hand out *)
  attach_status : jint
    (** what the machine answers to an attachment request of a thread
        that is not attached: [JNI_OK] when it accepts, an error code
        when it rejects (for instance while shutting down) *)
}.

Definition set_attached_threads (s : gset Thread) (vm : JavaVM) : JavaVM :=
  mkJavaVM s (supported_versions vm) (attach_status vm).

(** The [JNIEnv*] of an attached thread: one environment per thread,
    never null. *)
Definition JNIEnv_of (t : Thread) : pointer := N.succ (N.of_nat t).

Definition supports (vm : JavaVM) (version : jint) : bool :=
  bool_decide (version ∈ supported_versions vm).

Definition is_attached (vm : JavaVM) (t : Thread) : bool :=
  bool_decide (t ∈ attached_threads vm).

(** [GetEnv(void** env, jint version)]: [JNI_EDETACHED] and a null
    environment when the calling thread is not attached, [JNI_EVERSION]
    and a null environment when the version is not supported, otherwise
    [JNI_OK] and the thread's environment.  The machine is not changed. *)
Definition GetEnv (vm : JavaVM) (self : Thread) (version : jint)
  : jint * pointer :=
  if is_attached vm self then
    if supports vm version then (JNI_OK, JNIEnv_of self)
    else (JNI_EVERSION, nullptr)
  else (JNI_EDETACHED, nullptr).

(** [AttachCurrentThread(JNIEnv** env, void* args)]: a no-op returning
    [JNI_OK] on an attached thread; otherwise the machine accepts
    ([JNI_OK], the thread becomes attached) or rejects (its error code, a
    null environment, nothing changes). *)
Definition AttachCurrentThread (vm : JavaVM) (self : Thread)
  : (jint * pointer) * JavaVM :=
  if is_attached vm self then ((JNI_OK, JNIEnv_of self), vm)
  else if Z.eqb (attach_status vm) JNI_OK then
    ((JNI_OK, JNIEnv_of self),
     set_attached_threads ({[self]} ∪ attached_threads vm) vm)
  else ((attach_status vm, nullptr), vm).

(** [DetachCurrentThread()]: the calling thread is no longer attached;
    a no-op on a thread that is not attached. *)
Definition DetachCurrentThread (vm : JavaVM) (self : Thread)
  : jint * JavaVM :=
  if is_attached vm self then
    (JNI_OK, set_attached_threads (attached_threads vm ∖ {[self]}) vm)
  else (JNI_OK, vm).

(** The calls a program makes through a [JavaVM*]. *)
Inductive Call : Type :=
| CallGetEnv (self : Thread) (version : jint)
| CallAttachCurrentThread (self : Thread)
| CallDetachCurrentThread (self : Thread).

Definition is_attach_request (c : Call) : bool :=
  match c with CallAttachCurrentThread _ => true | _ => false end.

Definition is_detach_request (c : Call) : bool :=
  match c with CallDetachCurrentThread _ => true | _ => false end.

End JNI.
Export JNI.

(** ** The Android log (android/log.h) *)

Module AndroidLog.

Inductive Priority : Type := ANDROID_LOG_INFO | ANDROID_LOG_ERROR.

(** An argument of a printf-style format. *)
Inductive Arg : Type := ArgInt (z : Z) | ArgStr (s : string).

Record Entry : Type := mkEntry {
  prio : Priority;
  tag : string;
  fmt : string;
  args : list Arg
}.

Definition is_error (e : Entry) : bool :=
  match prio e with ANDROID_LOG_ERROR => true | ANDROID_LOG_INFO => false end.

End AndroidLog.
Export AndroidLog.

(** ** The world the code runs in *)

Record World : Type := mkWorld {
  g_jvm : pointer;          (** [JavaVM* g_jvm = nullptr;] *)
  jvm : JavaVM;             (** the virtual machine of the process *)
  logcat : list Entry;      (** log output, oldest entry first *)
  jni_calls : list Call     (** invocation-interface calls, oldest first *)
}.

(** The process before the library is loaded. *)
Definition initial_world (vm : JavaVM) : World := mkWorld nullptr vm [] [].

(** C++ objects in flight during stack unwinding. *)
Inductive thrown : Type :=
| std_exception (what : string)
    (** an object of [std::exception] or of a class derived from it *)
| other_object (v : Z).
    (** an object of any other type, as in [throw 42;] *)

(** How a call ends. *)
Inductive Completion (A : Type) : Type :=
| Normal (a : A)        (** it returns [a] *)
| Throw (e : thrown)    (** an exception leaves it *)
| Fault.                (** a member call through a null pointer *)
Arguments Normal {A} a.
Arguments Throw {A} e.
Arguments Fault {A}.

(** Computations over the world. *)
Definition M (A : Type) : Type := World → Completion A * World.

Definition ret {A} (a : A) : M A := λ w, (Normal a, w).

Definition bind {A B} (m : M A) (k : A → M B) : M B :=
  λ w, match m w with
       | (Normal a, w') => k a w'
       | (Throw e, w') => (Throw e, w')
       | (Fault, w') => (Fault, w')
       end.

#[global] Instance M_ret : MRet M := @ret.
#[global] Instance M_bind : MBind M := λ A B k m, bind m k.

Definition throw {A} (e : thrown) : M A := λ w, (Throw e, w).

Definition read_g_jvm : M pointer := λ w, (Normal (g_jvm w), w).

Definition write_g_jvm (p : pointer) : M unit :=
  λ w, (Normal (), mkWorld p (jvm w) (logcat w) (jni_calls w)).

(** [__android_log_print(prio, tag, fmt, ...)]. *)
Definition __android_log_print (p : Priority) (t : string) (f : string)
  (a : list Arg) : M unit :=
  λ w, (Normal (),
        mkWorld (g_jvm w) (jvm w) (logcat w ++ [mkEntry p t f a]) (jni_calls w)).

Definition LOG_TAG : string := "NativeDetector".
Definition LOGI (f : string) (a : list Arg) : M unit :=
  __android_log_print ANDROID_LOG_INFO LOG_TAG f a.
Definition LOGE (f : string) (a : list Arg) : M unit :=
  __android_log_print ANDROID_LOG_ERROR LOG_TAG f a.

(** A member call [p->f(...)] on a [JavaVM*]: a fault when [p] is null,
    otherwise the call reaches the machine and is recorded. *)
Definition invoke {A} (p : pointer) (c : Call) (f : JavaVM → A * JavaVM)
  : M A :=
  λ w, if is_null p then (Fault, w)
       else let '(a, vm') := f (jvm w) in
            (Normal a, mkWorld (g_jvm w) vm' (logcat w) (jni_calls w ++ [c])).

Definition call_GetEnv (p : pointer) (self : Thread) (version : jint)
  : M (jint * pointer) :=
  invoke p (CallGetEnv self version) (λ vm, (GetEnv vm self version, vm)).

Definition call_AttachCurrentThread (p : pointer) (self : Thread)
  : M (jint * pointer) :=
  invoke p (CallAttachCurrentThread self) (λ vm, AttachCurrentThread vm self).

Definition call_DetachCurrentThread (p : pointer) (self : Thread) : M jint :=
  invoke p (CallDetachCurrentThread self) (λ vm, DetachCurrentThread vm self).

(** ** jni_thread_helper.cpp: the exported entry points

    [self] is the thread that makes the call; the [JNIEnv*] and [jclass]
    parameters of the entry points are not used by their bodies.  The
    header defines the same four functions over [native_detector::g_jvm]
    with identical bodies. *)

Definition JNI_OnLoad (vm : pointer) : M jint :=
  write_g_jvm vm ;;
  LOGI "Native library loaded, JVM stored" [] ;;
  mret JNI_VERSION_1_6.

Definition Java_com_example_augmented_1mobile_1application_utils_JNIThreadManager_attachCurrentThread
  (self : Thread) : M jboolean :=
  g ← read_g_jvm;
  if is_null g then
    LOGE "JVM not available for thread attachment" [] ;;
    mret JNI_FALSE
  else
    '(result, thread_env) ← call_GetEnv g self JNI_VERSION_1_6;
    if Z.eqb result JNI_EDETACHED then
      '(result, thread_env) ← call_AttachCurrentThread g self;
      if Z.eqb result JNI_OK then
        LOGI "Thread successfully attached to JVM" [] ;;
        mret JNI_TRUE
      else
        LOGE "Failed to attach thread: %d" [ArgInt result] ;;
        mret JNI_FALSE
    else mret JNI_TRUE.

Definition Java_com_example_augmented_1mobile_1application_utils_JNIThreadManager_detachCurrentThread
  (self : Thread) : M unit :=
  g ← read_g_jvm;
  if negb (is_null g) then
    call_DetachCurrentThread g self ;;
    LOGI "Thread detached from JVM" []
  else mret ().

Definition Java_com_example_augmented_1mobile_1application_utils_JNIThreadManager_isCurrentThreadAttached
  (self : Thread) : M jboolean :=
  g ← read_g_jvm;
  if is_null g then mret JNI_FALSE
  else
    '(result, thread_env) ← call_GetEnv g self JNI_VERSION_1_6;
    mret (if Z.eqb result JNI_OK then JNI_TRUE else JNI_FALSE).

Abbreviation attachCurrentThread :=
  Java_com_example_augmented_1mobile_1application_utils_JNIThreadManager_attachCurrentThread.
Abbreviation detachCurrentThread :=
  Java_com_example_augmented_1mobile_1application_utils_JNIThreadManager_detachCurrentThread.
Abbreviation isCurrentThreadAttached :=
  Java_com_example_augmented_1mobile_1application_utils_JNIThreadManager_isCurrentThreadAttached.

(** ** jni_thread_helper.hpp: namespace [native_detector] *)

(** [try { body } catch (const std::exception& e) { handler(e.what()) }]:
    the handler takes objects of [std::exception] and of the classes
    derived from it; any other object keeps propagating, and so does
    whatever the handler itself throws. *)
Definition try_catch_std_exception {A} (body : M A) (handler : string → M A)
  : M A :=
  λ w, match body w with
       | (Throw (std_exception what), w') => handler what w'
       | r => r
       end.

(** A block that owns a local object with destructor [dtor]: the
    destructor runs when the block is left, by a return or by an exception
    that unwinds the stack.  A destructor that does not return normally
    ends the program. *)
Definition with_local {B} (dtor : M unit) (body : M B) : M B :=
  λ w, match body w with
       | (Fault, w') => (Fault, w')
       | (r, w') =>
           match dtor w' with
           | (Normal _, w'') => (r, w'')
           | (_, w'') => (Fault, w'')
           end
       end.

Module native_detector.

(** [class JNIThreadHelper]: RAII wrapper for JNI thread attachment. *)
Module JNIThreadHelper.

Record obj : Type := mk {
  jvm_ : pointer;       (** [JavaVM* jvm_] *)
  env_ : pointer;       (** [JNIEnv* env_] *)
  attached_ : bool      (** [bool attached_] *)
}.

(** [explicit JNIThreadHelper(JavaVM* jvm)], run on thread [self].  The
    members start as [jvm_(jvm), env_(nullptr), attached_(false)]; [env_]
    is the out-parameter of [GetEnv] and then of [AttachCurrentThread]. *)
Definition ctor (jvm : pointer) (self : Thread) : M obj :=
  if negb (is_null jvm) then
    '(result, env) ← call_GetEnv jvm self JNI_VERSION_1_6;
    if Z.eqb result JNI_EDETACHED then
      '(result, env) ← call_AttachCurrentThread jvm self;
      if Z.eqb result JNI_OK then
        LOGI "Thread attached to JVM" [] ;;
        mret (mk jvm env true)
      else
        LOGE "Failed to attach thread to JVM: %d" [ArgInt result] ;;
        mret (mk jvm env false)
    else mret (mk jvm env false)
  else mret (mk jvm nullptr false).

(** [~JNIThreadHelper()], run on thread [self]. *)
Definition dtor (this : obj) (self : Thread) : M unit :=
  if attached_ this && negb (is_null (jvm_ this)) then
    call_DetachCurrentThread (jvm_ this) self ;;
    LOGI "Thread detached from JVM" []
  else mret ().

Definition getEnv (this : obj) : pointer := env_ this.
Definition isValid (this : obj) : bool := negb (is_null (env_ this)).

End JNIThreadHelper.

(** What the template parameter [DetectorType] has to provide: the
    nested type [ResultType], its value-initialisation [ResultType{}]
    and the member [detect].  [Mat] stands for [cv::Mat].  Both are
    caller-supplied code: [detect] and the default constructor that
    [ResultType{}] runs may read and change the world, return, or throw. *)
Record DetectorType (Mat : Type) : Type := mkDetector {
  ResultType : Type;
  ResultType_init : M ResultType;
  detect : Mat → M ResultType
}.
Arguments ResultType {Mat} _.
Arguments ResultType_init {Mat} _.
Arguments detect {Mat} _ _.

(** [class ThreadSafeDetector].  [std::mutex detector_mutex_] and the
    [std::lock_guard] that brackets [detectWithThreadSafety] order calls
    of different threads; within one call they change nothing that this
    sequential embedding observes, and are left out.  The embedding
    therefore covers calls whose [detect] does not call back into the same
    [ThreadSafeDetector] (locking a [std::mutex] its owner holds is
    undefined), and starts after the lock has been taken. *)
Module ThreadSafeDetector.

Record obj : Type := mk {
  jvm_ : pointer        (** [JavaVM* jvm_] *)
}.

Definition ctor (jvm : pointer) : M obj :=
  LOGI "ThreadSafeDetector initialized" [] ;;
  mret (mk jvm).

(** [auto detectWithThreadSafety(DetectorType& detector,
    const cv::Mat& frame)], run on thread [self]. *)
Definition detectWithThreadSafety {Mat : Type} (this : obj)
  (detector : DetectorType Mat) (frame : Mat) (self : Thread)
  : M (ResultType detector) :=
  jni_helper ← JNIThreadHelper.ctor (jvm_ this) self;
  with_local (JNIThreadHelper.dtor jni_helper self)
    (if negb (JNIThreadHelper.isValid jni_helper) then
       LOGE "Failed to attach thread for detection" [] ;;
       ResultType_init detector
     else
       try_catch_std_exception
         (detect detector frame)
         (λ what,
            LOGE "Detection failed: %s" [ArgStr what] ;;
            ResultType_init detector)).

End ThreadSafeDetector.

End native_detector.
Import native_detector.

(** * Vocabulary of the statements *)

(** The world after one more log line, and after calls that left the
    machine in state [vm]. *)
Definition log_entry (e : Entry) (w : World) : World :=
  mkWorld (g_jvm w) (jvm w) (logcat w ++ [e]) (jni_calls w).

Definition record_calls (cs : list Call) (vm : JavaVM) (w : World) : World :=
  mkWorld (g_jvm w) vm (logcat w) (jni_calls w ++ cs).

Definition info (f : string) : Entry := mkEntry ANDROID_LOG_INFO LOG_TAG f [].
Definition error (f : string) (a : list Arg) : Entry :=
  mkEntry ANDROID_LOG_ERROR LOG_TAG f a.

(** The thread has a valid environment: [GetEnv] for the version the
    module asks for hands out a non-null [JNIEnv*]. *)
Definition valid_environment (vm : JavaVM) (t : Thread) : Prop :=
  is_null (snd (GetEnv vm t JNI_VERSION_1_6)) = false.

(** The four ways through the constructor of [JNIThreadHelper]: the token
    and the world it leaves. *)
Inductive ctor_path (p : pointer) (self : Thread) (w : World)
  : JNIThreadHelper.obj → World → Prop :=
| path_null :
    is_null p = true →
    ctor_path p self w (JNIThreadHelper.mk p nullptr false) w
| path_already :
    is_null p = false →
    is_attached (jvm w) self = true →
    ctor_path p self w
      (JNIThreadHelper.mk p (snd (GetEnv (jvm w) self JNI_VERSION_1_6)) false)
      (record_calls [CallGetEnv self JNI_VERSION_1_6] (jvm w) w)
| path_accepted :
    is_null p = false →
    is_attached (jvm w) self = false →
    attach_status (jvm w) = JNI_OK →
    ctor_path p self w
      (JNIThreadHelper.mk p (JNIEnv_of self) true)
      (log_entry (info "Thread attached to JVM")
         (record_calls
            [CallGetEnv self JNI_VERSION_1_6; CallAttachCurrentThread self]
            (set_attached_threads ({[self]} ∪ attached_threads (jvm w)) (jvm w))
            w))
| path_rejected :
    is_null p = false →
    is_attached (jvm w) self = false →
    attach_status (jvm w) ≠ JNI_OK →
    ctor_path p self w
      (JNIThreadHelper.mk p nullptr false)
      (log_entry
         (error "Failed to attach thread to JVM: %d"
            [ArgInt (attach_status (jvm w))])
         (record_calls
            [CallGetEnv self JNI_VERSION_1_6; CallAttachCurrentThread self]
            (jvm w) w)).

(** [n] consecutive calls of the attach entry point on thread [self],
    with the values they return. *)
Fixpoint attach_times (n : nat) (self : Thread) : M (list jboolean) :=
  match n with
  | O => mret []
  | S n' =>
      r ← attachCurrentThread self;
      rs ← attach_times n' self;
      mret (r :: rs)
  end.

(** The operations of the module other than the load entry point: the
    three entry points, and a scoped token acquired and released. *)
Inductive Operation : Type :=
| OpAttach (self : Thread)
| OpDetach (self : Thread)
| OpIsAttached (self : Thread)
| OpScopedToken (jvm : pointer) (self : Thread).

Definition perform (op : Operation) : M unit :=
  match op with
  | OpAttach self => attachCurrentThread self ;; mret ()
  | OpDetach self => detachCurrentThread self
  | OpIsAttached self => isCurrentThreadAttached self ;; mret ()
  | OpScopedToken p self =>
      token ← JNIThreadHelper.ctor p self;
      JNIThreadHelper.dtor token self
  end.

Fixpoint perform_all (ops : list Operation) : M unit :=
  match ops with
  | [] => mret ()
  | op :: ops' => perform op ;; perform_all ops'
  end.

(** ** Sample worlds *)

(** A machine that supports JNI 1.6 and accepts attachment; no native
    thread is attached yet. *)
Definition android_vm : JavaVM :=
  mkJavaVM ∅ [JNI_VERSION_1_2; JNI_VERSION_1_4; JNI_VERSION_1_6] JNI_OK.

(** The same machine while it refuses attachment. *)
Definition refusing_vm : JavaVM :=
  mkJavaVM ∅ [JNI_VERSION_1_2; JNI_VERSION_1_4; JNI_VERSION_1_6] JNI_ERR.

(** A machine whose interface stops at JNI 1.4: [GetEnv] answers
    [JNI_EVERSION] to a request for 1.6 on an attached thread. *)
Definition jni_1_4_vm : JavaVM :=
  mkJavaVM ∅ [JNI_VERSION_1_2; JNI_VERSION_1_4] JNI_OK.

(** A process whose [g_jvm] holds address [0x7000]. *)
Definition loaded_world (vm : JavaVM) : World := mkWorld 0x7000%N vm [] [].

(** Thread 3 is attached to a machine without JNI 1.6. *)
Definition jni_1_4_world : World :=
  loaded_world (set_attached_threads {[3%nat]} jni_1_4_vm).

(** Detectors over frames of type [unit] with integer results whose
    [ResultType{}] is 0: one that returns, one that throws a
    [std::runtime_error], one that executes [throw 42;]. *)
Definition returning_detector : DetectorType unit :=
  mkDetector unit Z (mret 0) (λ _, mret 5).
Definition failing_detector : DetectorType unit :=
  mkDetector unit Z (mret 0) (λ _, throw (std_exception "inference failed")).
Definition int_throwing_detector : DetectorType unit :=
  mkDetector unit Z (mret 0) (λ _, throw (other_object 42)).

(** A detector whose result type has a default constructor that throws a
    [std::runtime_error], and whose [detect] fails as well. *)
Definition throwing_result_detector : DetectorType unit :=
  mkDetector unit Z (throw (std_exception "no default result"))
    (λ _, throw (std_exception "inference failed")).

(** The scenario of a process: attach too early, load, attach, query,
    attach again, detach, query, detach again; with the values returned. *)
Definition life_cycle
  : M (jboolean * jint * jboolean * jboolean * jboolean * jboolean) :=
  r0 ← attachCurrentThread 3%nat;
  v ← JNI_OnLoad 0x7000%N;
  r1 ← attachCurrentThread 3%nat;
  q1 ← isCurrentThreadAttached 3%nat;
  r2 ← attachCurrentThread 3%nat;
  detachCurrentThread 3%nat ;;
  q2 ← isCurrentThreadAttached 3%nat;
  detachCurrentThread 3%nat ;;
  mret (r0, v, r1, q1, r2, q2).

(** ** Vocabulary of the further properties *)

(** The constructor of [JNIThreadHelper] cannot obtain an environment: the
    pointer is null, or the thread is attached but the machine has no JNI
    1.6 interface, or the thread is not attached and the machine rejects
    attachment. *)
Definition no_environment (p : pointer) (vm : JavaVM) (self : Thread) : bool :=
  is_null p ||
  (if is_attached vm self then negb (supports vm JNI_VERSION_1_6)
   else negb (Z.eqb (attach_status vm) JNI_OK)).

(** A detector that needs the calling thread [self] attached, as code
    that calls into the machine does: where the thread is not attached its
    [detect] goes wrong instead of running. *)
Definition attached_only {Mat : Type} (self : Thread)
  (detector : DetectorType Mat) : DetectorType Mat :=
  mkDetector Mat (ResultType detector) (ResultType_init detector)
    (λ frame w, if is_attached (jvm w) self then detect detector frame w
                else (Fault, w)).

(** The thread an operation is performed on. *)
Definition op_thread (op : Operation) : Thread :=
  match op with
  | OpAttach self | OpDetach self | OpIsAttached self
  | OpScopedToken _ self => self
  end.

(** The thread a call through the invocation interface is made for. *)
Definition call_thread (c : Call) : Thread :=
  match c with
  | CallGetEnv self _ | CallAttachCurrentThread self
  | CallDetachCurrentThread self => self
  end.

(** Construct a [ThreadSafeDetector] over [p] and make one guarded call. *)
Definition construct_and_detect {Mat : Type} (p : pointer)
  (detector : DetectorType Mat) (frame : Mat) (self : Thread)
  : M (ResultType detector) :=
  this ← ThreadSafeDetector.ctor p;
  ThreadSafeDetector.detectWithThreadSafety this detector frame self.

(** The attach entry point followed by the detach entry point. *)
Definition attach_then_detach (self : Thread) : M jboolean :=
  r ← attachCurrentThread self;
  detachCurrentThread self ;;
  mret r.

(** Threads 3 and 5 attached to a machine that accepts attachment. *)
Definition busy_vm : JavaVM := set_attached_threads {[3%nat; 5%nat]} android_vm.

(** * Properties *)

(** ** Running the code: one equation per path *)

Ltac unfold_M :=
  unfold mbind, M_bind, bind, mret, M_ret, ret, read_g_jvm, write_g_jvm,
    call_GetEnv, call_AttachCurrentThread, call_DetachCurrentThread, invoke,
    LOGI, LOGE, __android_log_print, log_entry, record_calls, info, error.

Ltac run_M := unfold_M; cbn.

Lemma is_null_nullptr (p : pointer) : is_null p = true ↔ p = nullptr.
Proof. unfold is_null, nullptr. apply N.eqb_eq. Qed.

Lemma is_null_false (p : pointer) : is_null p = false ↔ p ≠ nullptr.
Proof. unfold is_null, nullptr. apply N.eqb_neq. Qed.

Lemma JNIEnv_of_not_null (t : Thread) : is_null (JNIEnv_of t) = false.
Proof. unfold is_null, JNIEnv_of. apply N.eqb_neq, N.neq_succ_0. Qed.

(** *** What the machine answers *)

Lemma GetEnv_detached (vm : JavaVM) (t : Thread) (v : jint) :
  is_attached vm t = false → GetEnv vm t v = (JNI_EDETACHED, nullptr).
Proof. intros H. unfold GetEnv. by rewrite H. Qed.

Lemma GetEnv_EDETACHED_iff (vm : JavaVM) (t : Thread) (v : jint) :
  fst (GetEnv vm t v) = JNI_EDETACHED ↔ is_attached vm t = false.
Proof.
  unfold GetEnv.
  destruct (is_attached vm t); [| done].
  destruct (supports vm v); cbn; split; discriminate.
Qed.

Lemma GetEnv_OK_iff (vm : JavaVM) (t : Thread) (v : jint) :
  fst (GetEnv vm t v) = JNI_OK ↔
  is_attached vm t = true ∧ supports vm v = true.
Proof.
  unfold GetEnv.
  destruct (is_attached vm t), (supports vm v); cbn; split;
    (done || (intros [? ?]; done) || discriminate).
Qed.

Lemma GetEnv_env_iff (vm : JavaVM) (t : Thread) (v : jint) :
  is_null (snd (GetEnv vm t v)) = false ↔ fst (GetEnv vm t v) = JNI_OK.
Proof.
  unfold GetEnv.
  destruct (is_attached vm t), (supports vm v); cbn;
    rewrite ?JNIEnv_of_not_null; split; (done || discriminate).
Qed.

Lemma AttachCurrentThread_rejected (vm : JavaVM) (t : Thread) :
  fst (fst (AttachCurrentThread vm t)) ≠ JNI_OK →
  is_attached vm t = false ∧ attach_status vm ≠ JNI_OK ∧
  AttachCurrentThread vm t = ((attach_status vm, nullptr), vm).
Proof.
  unfold AttachCurrentThread.
  destruct (is_attached vm t); cbn; [done |].
  destruct (Z.eqb_spec (attach_status vm) JNI_OK); cbn; [done |].
  done.
Qed.

Lemma is_attached_attach_self (vm : JavaVM) (t : Thread) :
  is_attached (set_attached_threads ({[t]} ∪ attached_threads vm) vm) t = true.
Proof.
  unfold is_attached; cbn.
  apply bool_decide_eq_true, elem_of_union_l, elem_of_singleton. reflexivity.
Qed.

Lemma is_attached_attach_other (vm : JavaVM) (t u : Thread) :
  u ≠ t →
  is_attached (set_attached_threads ({[t]} ∪ attached_threads vm) vm) u
  = is_attached vm u.
Proof.
  intros Hne. unfold is_attached; cbn. apply bool_decide_ext.
  rewrite elem_of_union, elem_of_singleton. tauto.
Qed.

Lemma is_attached_detach_self (vm : JavaVM) (t : Thread) :
  is_attached (set_attached_threads (attached_threads vm ∖ {[t]}) vm) t = false.
Proof.
  unfold is_attached; cbn. apply bool_decide_eq_false.
  rewrite elem_of_difference, elem_of_singleton. tauto.
Qed.

Lemma is_attached_detach_other (vm : JavaVM) (t u : Thread) :
  u ≠ t →
  is_attached (set_attached_threads (attached_threads vm ∖ {[t]}) vm) u
  = is_attached vm u.
Proof.
  intros Hne. unfold is_attached; cbn. apply bool_decide_ext.
  rewrite elem_of_difference, elem_of_singleton. tauto.
Qed.

Lemma DetachCurrentThread_self (vm : JavaVM) (t : Thread) :
  is_attached (snd (DetachCurrentThread vm t)) t = false.
Proof.
  unfold DetachCurrentThread.
  destruct (is_attached vm t) eqn:E; cbn; [apply is_attached_detach_self | done].
Qed.

Lemma DetachCurrentThread_other (vm : JavaVM) (t u : Thread) :
  u ≠ t →
  is_attached (snd (DetachCurrentThread vm t)) u = is_attached vm u.
Proof.
  intros H. unfold DetachCurrentThread.
  destruct (is_attached vm t); cbn; [by apply is_attached_detach_other | done].
Qed.

Lemma DetachCurrentThread_unattached (vm : JavaVM) (t : Thread) :
  is_attached vm t = false → snd (DetachCurrentThread vm t) = vm.
Proof. intros H. unfold DetachCurrentThread. by rewrite H. Qed.

Lemma DetachCurrentThread_frame (vm : JavaVM) (t : Thread) :
  supported_versions (snd (DetachCurrentThread vm t)) = supported_versions vm ∧
  attach_status (snd (DetachCurrentThread vm t)) = attach_status vm.
Proof. unfold DetachCurrentThread. by destruct (is_attached vm t). Qed.

(** *** The entry points *)

Lemma attach_unset (self : Thread) (w : World) :
  is_null (g_jvm w) = true →
  attachCurrentThread self w
  = (Normal JNI_FALSE,
     log_entry (error "JVM not available for thread attachment" []) w).
Proof.
  intros H.
  unfold Java_com_example_augmented_1mobile_1application_utils_JNIThreadManager_attachCurrentThread.
  run_M. by rewrite H.
Qed.

Lemma attach_already (self : Thread) (w : World) :
  is_null (g_jvm w) = false →
  is_attached (jvm w) self = true →
  attachCurrentThread self w
  = (Normal JNI_TRUE,
     record_calls [CallGetEnv self JNI_VERSION_1_6] (jvm w) w).
Proof.
  intros H Ha.
  unfold Java_com_example_augmented_1mobile_1application_utils_JNIThreadManager_attachCurrentThread.
  run_M. rewrite ?H; cbn; rewrite ?H. unfold GetEnv. rewrite Ha.
  by destruct (supports (jvm w) JNI_VERSION_1_6).
Qed.

Lemma attach_accepted (self : Thread) (w : World) :
  is_null (g_jvm w) = false →
  is_attached (jvm w) self = false →
  attach_status (jvm w) = JNI_OK →
  attachCurrentThread self w
  = (Normal JNI_TRUE,
     log_entry (info "Thread successfully attached to JVM")
       (record_calls
          [CallGetEnv self JNI_VERSION_1_6; CallAttachCurrentThread self]
          (set_attached_threads ({[self]} ∪ attached_threads (jvm w)) (jvm w))
          w)).
Proof.
  intros H Ha Hs.
  unfold Java_com_example_augmented_1mobile_1application_utils_JNIThreadManager_attachCurrentThread.
  run_M. rewrite ?H; cbn; rewrite ?H. unfold GetEnv. rewrite Ha; cbn; rewrite ?H; cbn.
  unfold AttachCurrentThread. rewrite Ha, Hs. cbn.
  by rewrite <- app_assoc.
Qed.

Lemma attach_rejected (self : Thread) (w : World) :
  is_null (g_jvm w) = false →
  is_attached (jvm w) self = false →
  attach_status (jvm w) ≠ JNI_OK →
  attachCurrentThread self w
  = (Normal JNI_FALSE,
     log_entry
       (error "Failed to attach thread: %d" [ArgInt (attach_status (jvm w))])
       (record_calls
          [CallGetEnv self JNI_VERSION_1_6; CallAttachCurrentThread self]
          (jvm w) w)).
Proof.
  intros H Ha Hs.
  unfold Java_com_example_augmented_1mobile_1application_utils_JNIThreadManager_attachCurrentThread.
  run_M. rewrite ?H; cbn; rewrite ?H. unfold GetEnv. rewrite Ha; cbn; rewrite ?H; cbn.
  unfold AttachCurrentThread. rewrite Ha.
  destruct (Z.eqb_spec (attach_status (jvm w)) JNI_OK) as [E | E]; [done |].
  cbn. destruct (Z.eqb_spec (attach_status (jvm w)) JNI_OK); [done |].
  by rewrite <- app_assoc.
Qed.

Lemma detach_unset (self : Thread) (w : World) :
  is_null (g_jvm w) = true →
  detachCurrentThread self w = (Normal (), w).
Proof.
  intros H.
  unfold Java_com_example_augmented_1mobile_1application_utils_JNIThreadManager_detachCurrentThread.
  run_M. by rewrite H.
Qed.

Lemma detach_set (self : Thread) (w : World) :
  is_null (g_jvm w) = false →
  detachCurrentThread self w
  = (Normal (),
     log_entry (info "Thread detached from JVM")
       (record_calls [CallDetachCurrentThread self]
          (snd (DetachCurrentThread (jvm w) self)) w)).
Proof.
  intros H.
  unfold Java_com_example_augmented_1mobile_1application_utils_JNIThreadManager_detachCurrentThread.
  run_M. rewrite ?H; cbn; rewrite ?H.
  by destruct (DetachCurrentThread (jvm w) self).
Qed.

Lemma query_unset (self : Thread) (w : World) :
  is_null (g_jvm w) = true →
  isCurrentThreadAttached self w = (Normal JNI_FALSE, w).
Proof.
  intros H.
  unfold Java_com_example_augmented_1mobile_1application_utils_JNIThreadManager_isCurrentThreadAttached.
  run_M. by rewrite H.
Qed.

Lemma query_set (self : Thread) (w : World) :
  is_null (g_jvm w) = false →
  isCurrentThreadAttached self w
  = (Normal (if Z.eqb (fst (GetEnv (jvm w) self JNI_VERSION_1_6)) JNI_OK
             then JNI_TRUE else JNI_FALSE),
     record_calls [CallGetEnv self JNI_VERSION_1_6] (jvm w) w).
Proof.
  intros H.
  unfold Java_com_example_augmented_1mobile_1application_utils_JNIThreadManager_isCurrentThreadAttached.
  run_M. rewrite ?H; cbn; rewrite ?H.
  by destruct (GetEnv (jvm w) self JNI_VERSION_1_6).
Qed.

(** Every entry point returns normally, whatever the world. *)
Lemma attach_cases (self : Thread) (w : World) :
  ∃ r w', attachCurrentThread self w = (Normal r, w') ∧
          g_jvm w' = g_jvm w ∧
          supported_versions (jvm w') = supported_versions (jvm w) ∧
          attach_status (jvm w') = attach_status (jvm w).
Proof.
  destruct (is_null (g_jvm w)) eqn:H.
  { eexists _, _. split; [by apply attach_unset | done]. }
  destruct (is_attached (jvm w) self) eqn:Ha.
  { eexists _, _. split; [by apply attach_already | done]. }
  destruct (Z.eq_dec (attach_status (jvm w)) JNI_OK) as [Hs | Hs].
  - eexists _, _. split; [by apply attach_accepted | done].
  - eexists _, _. split; [by apply attach_rejected | done].
Qed.

Lemma detach_cases (self : Thread) (w : World) :
  ∃ w', detachCurrentThread self w = (Normal (), w') ∧
        g_jvm w' = g_jvm w ∧
        supported_versions (jvm w') = supported_versions (jvm w) ∧
        attach_status (jvm w') = attach_status (jvm w).
Proof.
  destruct (is_null (g_jvm w)) eqn:H.
  - eexists. split; [by apply detach_unset | done].
  - eexists. split; [by apply detach_set |]. cbn.
    split; [done | apply DetachCurrentThread_frame].
Qed.

Lemma query_cases (self : Thread) (w : World) :
  ∃ r w', isCurrentThreadAttached self w = (Normal r, w') ∧
          g_jvm w' = g_jvm w ∧ jvm w' = jvm w ∧ logcat w' = logcat w.
Proof.
  destruct (is_null (g_jvm w)) eqn:H.
  - eexists _, _. split; [by apply query_unset | done].
  - eexists _, _. split; [by apply query_set | done].
Qed.

(** *** The scoped token *)

Lemma ctor_null (p : pointer) (self : Thread) (w : World) :
  is_null p = true →
  JNIThreadHelper.ctor p self w
  = (Normal (JNIThreadHelper.mk p nullptr false), w).
Proof. intros H. unfold JNIThreadHelper.ctor. by rewrite H. Qed.

Lemma ctor_already (p : pointer) (self : Thread) (w : World) :
  is_null p = false →
  is_attached (jvm w) self = true →
  JNIThreadHelper.ctor p self w
  = (Normal (JNIThreadHelper.mk p
               (snd (GetEnv (jvm w) self JNI_VERSION_1_6)) false),
     record_calls [CallGetEnv self JNI_VERSION_1_6] (jvm w) w).
Proof.
  intros H Ha. unfold JNIThreadHelper.ctor. rewrite H.
  run_M. rewrite ?H; cbn. unfold GetEnv. rewrite Ha.
  by destruct (supports (jvm w) JNI_VERSION_1_6).
Qed.

Lemma ctor_accepted (p : pointer) (self : Thread) (w : World) :
  is_null p = false →
  is_attached (jvm w) self = false →
  attach_status (jvm w) = JNI_OK →
  JNIThreadHelper.ctor p self w
  = (Normal (JNIThreadHelper.mk p (JNIEnv_of self) true),
     log_entry (info "Thread attached to JVM")
       (record_calls
          [CallGetEnv self JNI_VERSION_1_6; CallAttachCurrentThread self]
          (set_attached_threads ({[self]} ∪ attached_threads (jvm w)) (jvm w))
          w)).
Proof.
  intros H Ha Hs. unfold JNIThreadHelper.ctor. rewrite H.
  run_M. rewrite ?H; cbn. unfold GetEnv. rewrite Ha; cbn; rewrite ?H; cbn.
  unfold AttachCurrentThread. rewrite Ha, Hs. cbn.
  by rewrite <- app_assoc.
Qed.

Lemma ctor_rejected (p : pointer) (self : Thread) (w : World) :
  is_null p = false →
  is_attached (jvm w) self = false →
  attach_status (jvm w) ≠ JNI_OK →
  JNIThreadHelper.ctor p self w
  = (Normal (JNIThreadHelper.mk p nullptr false),
     log_entry
       (error "Failed to attach thread to JVM: %d"
          [ArgInt (attach_status (jvm w))])
       (record_calls
          [CallGetEnv self JNI_VERSION_1_6; CallAttachCurrentThread self]
          (jvm w) w)).
Proof.
  intros H Ha Hs. unfold JNIThreadHelper.ctor. rewrite H.
  run_M. rewrite ?H; cbn. unfold GetEnv. rewrite Ha; cbn; rewrite ?H; cbn.
  unfold AttachCurrentThread. rewrite Ha.
  destruct (Z.eqb_spec (attach_status (jvm w)) JNI_OK) as [E | E]; [done |].
  cbn. destruct (Z.eqb_spec (attach_status (jvm w)) JNI_OK); [done |].
  by rewrite <- app_assoc.
Qed.

Lemma dtor_not_owner (this : JNIThreadHelper.obj) (self : Thread) (w : World) :
  JNIThreadHelper.attached_ this = false →
  JNIThreadHelper.dtor this self w = (Normal (), w).
Proof. intros H. unfold JNIThreadHelper.dtor. by rewrite H. Qed.

Lemma dtor_owner (this : JNIThreadHelper.obj) (self : Thread) (w : World) :
  JNIThreadHelper.attached_ this = true →
  is_null (JNIThreadHelper.jvm_ this) = false →
  JNIThreadHelper.dtor this self w
  = (Normal (),
     log_entry (info "Thread detached from JVM")
       (record_calls [CallDetachCurrentThread self]
          (snd (DetachCurrentThread (jvm w) self)) w)).
Proof.
  intros H Hp. unfold JNIThreadHelper.dtor. rewrite H, Hp. cbn.
  run_M. rewrite ?Hp; cbn.
  by destruct (DetachCurrentThread (jvm w) self).
Qed.

Lemma ctor_cases (p : pointer) (self : Thread) (w : World) :
  ∃ token w1, JNIThreadHelper.ctor p self w = (Normal token, w1) ∧
              ctor_path p self w token w1.
Proof.
  destruct (is_null p) eqn:H.
  { eexists _, _. split; [by apply ctor_null | by constructor]. }
  destruct (is_attached (jvm w) self) eqn:Ha.
  { eexists _, _. split; [by apply ctor_already | by constructor]. }
  destruct (Z.eq_dec (attach_status (jvm w)) JNI_OK) as [Hs | Hs].
  - eexists _, _. split; [by apply ctor_accepted | by constructor].
  - eexists _, _. split; [by apply ctor_rejected | by constructor].
Qed.

Lemma ctor_path_frame (p : pointer) (self : Thread) (w : World)
  (token : JNIThreadHelper.obj) (w1 : World) :
  ctor_path p self w token w1 →
  g_jvm w1 = g_jvm w ∧
  JNIThreadHelper.jvm_ token = p ∧
  (JNIThreadHelper.attached_ token = true → is_null p = false) ∧
  (JNIThreadHelper.isValid token = false →
     JNIThreadHelper.attached_ token = false).
Proof.
  intros []; cbn; repeat split; try done.
  unfold JNIThreadHelper.isValid; cbn. by rewrite JNIEnv_of_not_null.
Qed.

Lemma ctor_path_owner (p : pointer) (self : Thread) (w : World)
  (token : JNIThreadHelper.obj) (w1 : World) :
  ctor_path p self w token w1 →
  JNIThreadHelper.attached_ token = true ↔
  is_attached (jvm w) self = false ∧ is_attached (jvm w1) self = true.
Proof.
  intros [Hp | Hp Ha | Hp Ha Hs | Hp Ha Hs]; cbn.
  - split; [done |]. intros [E1 E2]. by rewrite E1 in E2.
  - split; [done |]. intros [E1 E2]. by rewrite Ha in E1.
  - split; [| done]. intros _. split; [done | apply is_attached_attach_self].
  - split; [done |]. intros [E1 E2]. by rewrite E1 in E2.
Qed.

Lemma ctor_path_acquires (p : pointer) (self : Thread) (w : World)
  (token : JNIThreadHelper.obj) (w1 : World) :
  ctor_path p self w token w1 →
  (is_null p = false → is_attached (jvm w) self = true →
     JNIThreadHelper.attached_ token = false ∧
     jvm w1 = jvm w ∧
     jni_calls w1 = jni_calls w ++ [CallGetEnv self JNI_VERSION_1_6]) ∧
  (is_null p = false → is_attached (jvm w) self = false →
     jni_calls w1
     = jni_calls w ++
       [CallGetEnv self JNI_VERSION_1_6; CallAttachCurrentThread self] ∧
     (attach_status (jvm w) = JNI_OK →
        JNIThreadHelper.attached_ token = true ∧
        is_attached (jvm w1) self = true) ∧
     (attach_status (jvm w) ≠ JNI_OK →
        JNIThreadHelper.attached_ token = false ∧ jvm w1 = jvm w)) ∧
  (is_null p = true → JNIThreadHelper.attached_ token = false ∧ w1 = w).
Proof.
  intros [Hp | Hp Ha | Hp Ha Hs | Hp Ha Hs]; cbn.
  - split; [congruence |]. split; [congruence | done].
  - split; [done |]. split; [congruence | congruence].
  - split; [congruence |]. split; [| congruence].
    intros _ _. split; [done |]. split; [| done].
    intros _. split; [done | apply is_attached_attach_self].
  - split; [congruence |]. split; [| congruence].
    intros _ _. split; [done |]. split; [done | done].
Qed.

(** The destructor of a token the constructor made always returns. *)
Lemma dtor_cases (this : JNIThreadHelper.obj) (self : Thread) (w : World) :
  (JNIThreadHelper.attached_ this = true →
     is_null (JNIThreadHelper.jvm_ this) = false) →
  ∃ w', JNIThreadHelper.dtor this self w = (Normal (), w') ∧
        g_jvm w' = g_jvm w ∧
        jni_calls w'
        = jni_calls w ++
          (if JNIThreadHelper.attached_ this
           then [CallDetachCurrentThread self] else []) ∧
        (JNIThreadHelper.attached_ this = false → w' = w) ∧
        (JNIThreadHelper.attached_ this = true →
           is_attached (jvm w') self = false).
Proof.
  intros Hinv. destruct (JNIThreadHelper.attached_ this) eqn:E.
  - eexists. split; [apply dtor_owner; auto |]. cbn.
    repeat split; [done |]. intros _. apply DetachCurrentThread_self.
  - eexists. split; [by apply dtor_not_owner |].
    rewrite app_nil_r. done.
Qed.

Lemma detect_unfold {Mat : Type} (this : ThreadSafeDetector.obj)
  (detector : DetectorType Mat) (frame : Mat) (self : Thread) (w : World)
  (token : JNIThreadHelper.obj) (w1 : World) :
  JNIThreadHelper.ctor (ThreadSafeDetector.jvm_ this) self w
  = (Normal token, w1) →
  ThreadSafeDetector.detectWithThreadSafety this detector frame self w
  = with_local (JNIThreadHelper.dtor token self)
      (if negb (JNIThreadHelper.isValid token) then
         LOGE "Failed to attach thread for detection" [] ;;
         ResultType_init detector
       else
         try_catch_std_exception
           (detect detector frame)
           (λ what,
              LOGE "Detection failed: %s" [ArgStr what] ;;
              ResultType_init detector))
      w1.
Proof.
  intros H. unfold ThreadSafeDetector.detectWithThreadSafety.
  unfold mbind at 1. unfold M_bind, bind. by rewrite H.
Qed.

Lemma attach_times_attached (n : nat) (self : Thread) (w : World) :
  is_null (g_jvm w) = false →
  is_attached (jvm w) self = true →
  attach_times n self w
  = (Normal (replicate n JNI_TRUE),
     record_calls (replicate n (CallGetEnv self JNI_VERSION_1_6)) (jvm w) w).
Proof.
  revert w. induction n as [| n IH]; intros w H Ha.
  - cbn. unfold record_calls. rewrite app_nil_r. by destruct w.
  - cbn [attach_times]. unfold mbind at 1. unfold M_bind, bind.
    rewrite attach_already by done.
    unfold mbind at 1. unfold M_bind, bind.
    rewrite IH by done.
    cbn. unfold record_calls. cbn. by rewrite <- app_assoc.
Qed.

Lemma query_true_iff (self : Thread) (w : World) (r : jboolean) (w' : World) :
  isCurrentThreadAttached self w = (Normal r, w') →
  (r = JNI_TRUE ∨ r = JNI_FALSE) ∧
  (r = JNI_TRUE ↔ g_jvm w ≠ nullptr ∧ valid_environment (jvm w) self).
Proof.
  intros Hrun. destruct (is_null (g_jvm w)) eqn:H.
  - rewrite query_unset in Hrun by done. injection Hrun as <- <-.
    split; [by right |]. split; [done |].
    intros [Hset _]. apply is_null_false in Hset. congruence.
  - rewrite query_set in Hrun by done. injection Hrun as <- <-.
    unfold valid_environment. rewrite GetEnv_env_iff.
    destruct (Z.eqb_spec (fst (GetEnv (jvm w) self JNI_VERSION_1_6)) JNI_OK)
      as [E | E].
    + split; [by left |]. split; [| done]. intros _.
      split; [by apply is_null_false | done].
    + split; [by right |]. split; [done |]. intros [_ E']. done.
Qed.

Lemma perform_cases (op : Operation) (w : World) :
  ∃ w', perform op w = (Normal (), w') ∧ g_jvm w' = g_jvm w.
Proof.
  destruct op as [self | self | self | p self]; cbn [perform].
  - destruct (attach_cases self w) as (r & w' & E & Hg & _).
    exists w'. unfold mbind, M_bind, bind. by rewrite E.
  - destruct (detach_cases self w) as (w' & E & Hg & _). by exists w'.
  - destruct (query_cases self w) as (r & w' & E & Hg & _).
    exists w'. unfold mbind, M_bind, bind. by rewrite E.
  - destruct (ctor_cases p self w) as (token & w1 & E & Hpath).
    apply ctor_path_frame in Hpath as (Hg & Hjvm & Hinv & _).
    destruct (dtor_cases token self w1) as (w' & Ed & Hg' & _).
    { rewrite Hjvm. exact Hinv. }
    exists w'. unfold mbind, M_bind, bind. rewrite E.
    split; [exact Ed | congruence].
Qed.

Lemma perform_all_cases (ops : list Operation) (w : World) :
  ∃ w', perform_all ops w = (Normal (), w') ∧ g_jvm w' = g_jvm w.
Proof.
  revert w. induction ops as [| op ops IH]; intros w.
  - by exists w.
  - destruct (perform_cases op w) as (w1 & E1 & H1).
    destruct (IH w1) as (w' & E & H).
    exists w'. cbn [perform_all]. unfold mbind, M_bind, bind. rewrite E1.
    split; [exact E | congruence].
Qed.

(** *** A life cycle, run

    Attach before the library is loaded fails; after [JNI_OnLoad] thread 3
    attaches, is reported attached, attaches again without a second
    request, detaches, is reported detached, and detaches once more. *)
Example life_cycle_returns :
  fst (life_cycle (initial_world android_vm))
  = Normal (JNI_FALSE, JNI_VERSION_1_6, JNI_TRUE, JNI_TRUE, JNI_TRUE,
            JNI_FALSE).
Proof. vm_compute. reflexivity. Qed.

Example life_cycle_world :
  g_jvm (snd (life_cycle (initial_world android_vm))) = 0x7000%N ∧
  jvm (snd (life_cycle (initial_world android_vm))) = android_vm ∧
  jni_calls (snd (life_cycle (initial_world android_vm)))
  = [CallGetEnv 3%nat JNI_VERSION_1_6; CallAttachCurrentThread 3%nat;
     CallGetEnv 3%nat JNI_VERSION_1_6;
     CallGetEnv 3%nat JNI_VERSION_1_6;
     CallDetachCurrentThread 3%nat;
     CallGetEnv 3%nat JNI_VERSION_1_6;
     CallDetachCurrentThread 3%nat] ∧
  List.filter is_error (logcat (snd (life_cycle (initial_world android_vm))))
  = [error "JVM not available for thread attachment" []].
Proof. repeat split; vm_compute; reflexivity. Qed.

(** ** The entry points before and after the library is loaded *)

(** C3.  While [g_jvm] is null (the load entry point has not run), each of
    the three operations returns normally and never calls through the null
    pointer: attach logs an error and returns [JNI_FALSE], the query
    returns [JNI_FALSE] and leaves the world as it is, detach does
    nothing. *)
Theorem unset_handle_fails_safe (self : Thread) (w : World) :
  g_jvm w = nullptr →
  attachCurrentThread self w
  = (Normal JNI_FALSE,
     log_entry (error "JVM not available for thread attachment" []) w) ∧
  isCurrentThreadAttached self w = (Normal JNI_FALSE, w) ∧
  detachCurrentThread self w = (Normal (), w).
Proof.
  intros H. apply is_null_nullptr in H.
  split; [by apply attach_unset |].
  split; [by apply query_unset | by apply detach_unset].
Qed.

Lemma unset_handle_fails_safe_witness :
  g_jvm (initial_world android_vm) = nullptr ∧
  fst (attachCurrentThread 3%nat (initial_world android_vm)) = Normal JNI_FALSE ∧
  isCurrentThreadAttached 3%nat (initial_world android_vm)
  = (Normal JNI_FALSE, initial_world android_vm) ∧
  detachCurrentThread 3%nat (initial_world android_vm)
  = (Normal (), initial_world android_vm).
Proof.
  split; [reflexivity |].
  destruct (unset_handle_fails_safe 3%nat (initial_world android_vm))
    as (Ha & Hq & Hd); [reflexivity |].
  split; [by rewrite Ha |]. split; assumption.
Defined.

(** C6.  With [g_jvm] set, detach asks the machine to detach the calling
    thread whether or not that thread is attached: exactly one
    [DetachCurrentThread] call is made, the function returns normally and
    logs only an informational line, the calling thread is not attached
    afterwards, a machine on which it was not attached is left as it was,
    and no other thread's attachment changes. *)
Theorem detach_is_unconditional (self : Thread) (w : World) :
  g_jvm w ≠ nullptr →
  ∃ w', detachCurrentThread self w = (Normal (), w') ∧
        jni_calls w' = jni_calls w ++ [CallDetachCurrentThread self] ∧
        logcat w' = logcat w ++ [info "Thread detached from JVM"] ∧
        g_jvm w' = g_jvm w ∧
        is_attached (jvm w') self = false ∧
        (is_attached (jvm w) self = false → jvm w' = jvm w) ∧
        (∀ t : Thread, t ≠ self →
           is_attached (jvm w') t = is_attached (jvm w) t).
Proof.
  intros H. apply is_null_false in H.
  eexists. split; [by apply detach_set |]. cbn.
  repeat split.
  - apply DetachCurrentThread_self.
  - apply DetachCurrentThread_unattached.
  - intros t Ht. by apply DetachCurrentThread_other.
Qed.

Lemma detach_is_unconditional_witness :
  g_jvm (loaded_world android_vm) ≠ nullptr ∧
  is_attached (jvm (loaded_world android_vm)) 3%nat = false ∧
  ∃ w', detachCurrentThread 3%nat (loaded_world android_vm) = (Normal (), w') ∧
        jni_calls w' = [CallDetachCurrentThread 3%nat] ∧
        jvm w' = android_vm.
Proof.
  split; [discriminate |]. split; [reflexivity |].
  destruct (detach_is_unconditional 3%nat (loaded_world android_vm))
    as (w' & Hrun & Hcalls & _ & _ & _ & Hsame & _); [discriminate |].
  exists w'. split; [exact Hrun |]. split; [exact Hcalls |].
  apply Hsame. reflexivity.
Defined.

(** C7.  When the machine rejects the attachment request, attach returns
    [JNI_FALSE] after having made the request, and neither [g_jvm] nor the
    machine (so neither the calling thread's attachment) has changed. *)
Theorem rejected_attach_changes_nothing (self : Thread) (w : World) :
  g_jvm w ≠ nullptr →
  fst (fst (AttachCurrentThread (jvm w) self)) ≠ JNI_OK →
  ∃ w', attachCurrentThread self w = (Normal JNI_FALSE, w') ∧
        jni_calls w'
        = jni_calls w ++
          [CallGetEnv self JNI_VERSION_1_6; CallAttachCurrentThread self] ∧
        g_jvm w' = g_jvm w ∧
        jvm w' = jvm w ∧
        is_attached (jvm w') self = is_attached (jvm w) self.
Proof.
  intros H Hrej. apply is_null_false in H.
  apply AttachCurrentThread_rejected in Hrej as (Ha & Hs & _).
  eexists. split; [by apply attach_rejected |]. done.
Qed.

Lemma rejected_attach_changes_nothing_witness :
  g_jvm (loaded_world refusing_vm) ≠ nullptr ∧
  fst (fst (AttachCurrentThread (jvm (loaded_world refusing_vm)) 3%nat)) ≠ JNI_OK ∧
  ∃ w', attachCurrentThread 3%nat (loaded_world refusing_vm)
        = (Normal JNI_FALSE, w') ∧
        g_jvm w' = 0x7000%N ∧ jvm w' = refusing_vm.
Proof.
  split; [discriminate |]. split; [discriminate |].
  destruct (rejected_attach_changes_nothing 3%nat (loaded_world refusing_vm))
    as (w' & Hrun & _ & Hg & Hvm & _); [discriminate | discriminate |].
  exists w'. split; [exact Hrun |]. split; [exact Hg | exact Hvm].
Defined.

(** C9.  With [g_jvm] set, whenever [GetEnv] answers anything but
    [JNI_EDETACHED], attach returns [JNI_TRUE] after that single [GetEnv]
    call: no attachment is requested and the machine is untouched.  When
    the answer was an error such as [JNI_EVERSION], the thread holds no
    valid environment although attach returned [JNI_TRUE], and the query
    that follows returns [JNI_FALSE]. *)
Theorem attach_true_whenever_not_EDETACHED (self : Thread) (w : World) :
  g_jvm w ≠ nullptr →
  fst (GetEnv (jvm w) self JNI_VERSION_1_6) ≠ JNI_EDETACHED →
  ∃ w', attachCurrentThread self w = (Normal JNI_TRUE, w') ∧
        jni_calls w' = jni_calls w ++ [CallGetEnv self JNI_VERSION_1_6] ∧
        g_jvm w' = g_jvm w ∧ jvm w' = jvm w ∧ logcat w' = logcat w ∧
        (fst (GetEnv (jvm w) self JNI_VERSION_1_6) ≠ JNI_OK →
           ¬ valid_environment (jvm w') self ∧
           fst (isCurrentThreadAttached self w') = Normal JNI_FALSE).
Proof.
  intros H Hget. apply is_null_false in H.
  assert (Ha : is_attached (jvm w) self = true).
  { destruct (is_attached (jvm w) self) eqn:E; [done |].
    exfalso. apply Hget. by apply GetEnv_EDETACHED_iff. }
  eexists. split; [by apply attach_already |]. cbn.
  repeat split.
  - unfold valid_environment. rewrite GetEnv_env_iff. done.
  - rewrite query_set by done. cbn.
    by destruct (Z.eqb_spec (fst (GetEnv (jvm w) self JNI_VERSION_1_6)) JNI_OK).
Qed.

Lemma attach_true_whenever_not_EDETACHED_witness :
  g_jvm jni_1_4_world ≠ nullptr ∧
  fst (GetEnv (jvm jni_1_4_world) 3%nat JNI_VERSION_1_6) = JNI_EVERSION ∧
  ∃ w', attachCurrentThread 3%nat jni_1_4_world = (Normal JNI_TRUE, w') ∧
        jni_calls w' = [CallGetEnv 3%nat JNI_VERSION_1_6] ∧
        ¬ valid_environment (jvm w') 3%nat ∧
        fst (isCurrentThreadAttached 3%nat w') = Normal JNI_FALSE.
Proof.
  split; [discriminate |]. split; [reflexivity |].
  destruct (attach_true_whenever_not_EDETACHED 3%nat jni_1_4_world)
    as (w' & Hrun & Hcalls & _ & _ & _ & Herr); [discriminate | discriminate |].
  exists w'. split; [exact Hrun |]. split; [exact Hcalls |].
  apply Herr. discriminate.
Defined.

(** C10.  Attach, detach and the query never write [g_jvm]: after any call
    of any of the three it holds the value it held before.  The load entry
    point is the one function that assigns it. *)
Theorem handle_written_only_by_JNI_OnLoad (self : Thread) (vm : pointer)
  (w : World) :
  g_jvm (snd (attachCurrentThread self w)) = g_jvm w ∧
  g_jvm (snd (detachCurrentThread self w)) = g_jvm w ∧
  g_jvm (snd (isCurrentThreadAttached self w)) = g_jvm w ∧
  g_jvm (snd (JNI_OnLoad vm w)) = vm.
Proof.
  destruct (attach_cases self w) as (r & wa & Ea & Ha & _).
  destruct (detach_cases self w) as (wd & Ed & Hd & _).
  destruct (query_cases self w) as (q & wq & Eq & Hq & _).
  rewrite Ea, Ed, Eq. cbn. done.
Qed.

(** C8.  [JNI_OnLoad] stores the pointer it receives in [g_jvm] and
    returns [JNI_VERSION_1_6] (it has no failing path); it touches nothing
    else of the machine.  A non-null pointer leaves [g_jvm] set, and no
    sequence of the other operations (attach, detach, query, a scoped
    token acquired and released) run afterwards makes it differ from the
    stored value. *)
Theorem JNI_OnLoad_stores_handle (vm : pointer) (w : World) :
  ∃ w', JNI_OnLoad vm w = (Normal JNI_VERSION_1_6, w') ∧
        JNI_VERSION_1_6 ≠ JNI_ERR ∧
        g_jvm w' = vm ∧
        jvm w' = jvm w ∧
        (vm ≠ nullptr → g_jvm w' ≠ nullptr) ∧
        ∀ ops : list Operation,
          ∃ w'', perform_all ops w' = (Normal (), w'') ∧ g_jvm w'' = vm.
Proof.
  eexists. split; [reflexivity |]. cbn.
  repeat split; [done | done |].
  intros ops.
  match goal with |- ∃ w'', perform_all ops ?w0 = _ ∧ _ =>
    destruct (perform_all_cases ops w0) as (w'' & E & H) end.
  by exists w''.
Qed.

(** ** Attach and the query *)

(** C2.  With [g_jvm] set and a machine that accepts attachment, the first
    attach call on a thread returns [JNI_TRUE] and leaves the thread
    attached (having requested attachment when the thread was not attached
    before); each of the [n] calls that follow returns [JNI_TRUE], makes
    one [GetEnv] call and nothing else: no further attachment request, and
    the machine, [g_jvm] and the log stay as the first call left them. *)
Theorem attach_is_idempotent (self : Thread) (n : nat) (w : World) :
  g_jvm w ≠ nullptr →
  attach_status (jvm w) = JNI_OK →
  ∃ w1 wn,
    attachCurrentThread self w = (Normal JNI_TRUE, w1) ∧
    is_attached (jvm w1) self = true ∧
    (is_attached (jvm w) self = false →
       jni_calls w1
       = jni_calls w ++
         [CallGetEnv self JNI_VERSION_1_6; CallAttachCurrentThread self]) ∧
    attach_times n self w1 = (Normal (replicate n JNI_TRUE), wn) ∧
    attach_times (S n) self w = (Normal (replicate (S n) JNI_TRUE), wn) ∧
    jni_calls wn
    = jni_calls w1 ++ replicate n (CallGetEnv self JNI_VERSION_1_6) ∧
    jvm wn = jvm w1 ∧ g_jvm wn = g_jvm w1 ∧ logcat wn = logcat w1.
Proof.
  intros H Hs. apply is_null_false in H.
  assert (∃ w1, attachCurrentThread self w = (Normal JNI_TRUE, w1) ∧
                is_attached (jvm w1) self = true ∧
                is_null (g_jvm w1) = false ∧
                (is_attached (jvm w) self = false →
                   jni_calls w1
                   = jni_calls w ++
                     [CallGetEnv self JNI_VERSION_1_6;
                      CallAttachCurrentThread self]))
    as (w1 & E1 & Ha1 & Hg1 & Hreq).
  { destruct (is_attached (jvm w) self) eqn:Ha.
    - eexists. split; [by apply attach_already |]. done.
    - eexists. split; [by apply attach_accepted |]. cbn.
      split; [apply is_attached_attach_self | done]. }
  pose proof (attach_times_attached n self w1 Hg1 Ha1) as En.
  eexists w1, _. split; [exact E1 |]. split; [exact Ha1 |].
  split; [exact Hreq |]. split; [exact En |].
  split; [| done].
  cbn [attach_times]. unfold mbind at 1. unfold M_bind, bind. rewrite E1.
  unfold mbind at 1. unfold M_bind, bind. by rewrite En.
Qed.

Lemma attach_is_idempotent_witness :
  g_jvm (loaded_world android_vm) ≠ nullptr ∧
  attach_status (jvm (loaded_world android_vm)) = JNI_OK ∧
  ∃ wn, attach_times 3 7%nat (loaded_world android_vm)
        = (Normal [JNI_TRUE; JNI_TRUE; JNI_TRUE], wn) ∧
        jni_calls wn
        = [CallGetEnv 7%nat JNI_VERSION_1_6; CallAttachCurrentThread 7%nat;
           CallGetEnv 7%nat JNI_VERSION_1_6; CallGetEnv 7%nat JNI_VERSION_1_6].
Proof.
  split; [discriminate |]. split; [reflexivity |].
  destruct (attach_is_idempotent 7%nat 2 (loaded_world android_vm))
    as (w1 & wn & _ & _ & Hreq & _ & Hall & Hcalls & _);
    [discriminate | reflexivity |].
  exists wn. split; [exact Hall |].
  rewrite Hcalls, Hreq by reflexivity. reflexivity.
Defined.

(** C4.  The query returns [JNI_TRUE] exactly when [g_jvm] is set and the
    calling thread has a valid environment, and [JNI_FALSE] otherwise; it
    changes neither [g_jvm] nor the machine nor the log.  Right after an
    attach that returned [JNI_TRUE] it returns [JNI_TRUE], on every
    machine that has the JNI 1.6 interface: that is the version
    [JNI_OnLoad] announces to the machine that loads the library, so it
    is every machine on which the entry points run.  Right after detach
    it returns [JNI_FALSE]. *)
Theorem query_reports_valid_environment (self : Thread) (w : World) :
  ∃ r w',
    isCurrentThreadAttached self w = (Normal r, w') ∧
    (r = JNI_TRUE ∨ r = JNI_FALSE) ∧
    (r = JNI_TRUE ↔ g_jvm w ≠ nullptr ∧ valid_environment (jvm w) self) ∧
    g_jvm w' = g_jvm w ∧ jvm w' = jvm w ∧ logcat w' = logcat w ∧
    (∀ w0 : World,
       supports (jvm w0) JNI_VERSION_1_6 = true →
       attachCurrentThread self w0 = (Normal JNI_TRUE, w) →
       r = JNI_TRUE) ∧
    (∀ w0 : World,
       detachCurrentThread self w0 = (Normal (), w) →
       r = JNI_FALSE).
Proof.
  destruct (query_cases self w) as (r & w' & E & Hg & Hvm & Hlog).
  destruct (query_true_iff self w r w' E) as (Hbool & Hiff).
  exists r, w'. split; [exact E |]. split; [exact Hbool |].
  split; [exact Hiff |]. split; [exact Hg |]. split; [exact Hvm |].
  split; [exact Hlog |]. split.
  - intros w0 Hsup Hatt. apply Hiff.
    assert (Hok : ∀ vm, is_attached vm self = true →
                        supported_versions vm = supported_versions (jvm w0) →
                        valid_environment vm self).
    { intros vm Ha Hv. unfold valid_environment.
      apply GetEnv_env_iff, GetEnv_OK_iff. split; [exact Ha |].
      unfold supports in *. by rewrite Hv. }
    destruct (is_null (g_jvm w0)) eqn:H0.
    { rewrite attach_unset in Hatt by done. discriminate Hatt. }
    destruct (is_attached (jvm w0) self) eqn:Ha.
    { rewrite attach_already in Hatt by done. injection Hatt as <-.
      cbn. split; [by apply is_null_false | by apply Hok]. }
    destruct (Z.eq_dec (attach_status (jvm w0)) JNI_OK) as [Hs | Hs].
    + rewrite attach_accepted in Hatt by done. injection Hatt as <-.
      cbn. split; [by apply is_null_false |].
      apply Hok; [apply is_attached_attach_self | done].
    + rewrite attach_rejected in Hatt by done. discriminate Hatt.
  - intros w0 Hdet.
    destruct Hbool as [-> | ->]; [| done].
    exfalso. destruct Hiff as [Hiff _].
    destruct (Hiff eq_refl) as (Hset & Hvalid).
    unfold valid_environment in Hvalid.
    apply GetEnv_env_iff, GetEnv_OK_iff in Hvalid as (Ha & _).
    destruct (is_null (g_jvm w0)) eqn:H0.
    + rewrite detach_unset in Hdet by done. injection Hdet as <-.
      apply is_null_nullptr in H0. done.
    + rewrite detach_set in Hdet by done. injection Hdet as <-.
      cbn in Ha. by rewrite DetachCurrentThread_self in Ha.
Qed.

Lemma query_reports_valid_environment_witness :
  supports (jvm (loaded_world android_vm)) JNI_VERSION_1_6 = true ∧
  attachCurrentThread 3%nat (loaded_world android_vm)
  = (Normal JNI_TRUE,
     snd (attachCurrentThread 3%nat (loaded_world android_vm))) ∧
  fst (isCurrentThreadAttached 3%nat
         (snd (attachCurrentThread 3%nat (loaded_world android_vm))))
  = Normal JNI_TRUE.
Proof.
  split; [reflexivity |]. split; [reflexivity |].
  destruct (query_reports_valid_environment 3%nat
              (snd (attachCurrentThread 3%nat (loaded_world android_vm))))
    as (r & w' & Hrun & _ & _ & _ & _ & _ & Hafter & _).
  rewrite Hrun. cbn [fst]. f_equal.
  apply (Hafter (loaded_world android_vm)); reflexivity.
Defined.

(** ** The scoped token and the guarded call *)

(** C1.  Acquiring a token always returns, and its flag [attached_] is set
    exactly when the thread was not attached before and the acquisition
    attached it.  Over a non-null pointer the acquisition asks [GetEnv]
    first: on an attached thread it stops there, with the flag clear and
    the machine untouched; on a thread that is not attached it requests
    [AttachCurrentThread], and when the machine accepts the thread is
    attached and the flag is set, when it rejects the flag is clear and
    the machine untouched.  Over a null pointer it does nothing.
    Releasing the token, in whatever world [w2] the scope ends, always
    returns and calls [DetachCurrentThread] exactly when the flag is set,
    after which the thread is not attached.  A token acquired on an
    attached thread leaves the machine untouched on release, so the
    thread stays attached; a token acquired on a thread that was not
    attached leaves that thread not attached after release (the scope in
    between having left the thread's attachment as the acquisition made
    it). *)
Theorem token_detaches_only_its_own_attach (p : pointer) (self : Thread)
  (w : World) :
  ∃ token w1,
    JNIThreadHelper.ctor p self w = (Normal token, w1) ∧
    (JNIThreadHelper.attached_ token = true ↔
       is_attached (jvm w) self = false ∧ is_attached (jvm w1) self = true) ∧
    (p ≠ nullptr → is_attached (jvm w) self = true →
       JNIThreadHelper.attached_ token = false ∧
       jvm w1 = jvm w ∧
       jni_calls w1 = jni_calls w ++ [CallGetEnv self JNI_VERSION_1_6]) ∧
    (p ≠ nullptr → is_attached (jvm w) self = false →
       jni_calls w1
       = jni_calls w ++
         [CallGetEnv self JNI_VERSION_1_6; CallAttachCurrentThread self] ∧
       (attach_status (jvm w) = JNI_OK →
          JNIThreadHelper.attached_ token = true ∧
          is_attached (jvm w1) self = true) ∧
       (attach_status (jvm w) ≠ JNI_OK →
          JNIThreadHelper.attached_ token = false ∧ jvm w1 = jvm w)) ∧
    (p = nullptr → JNIThreadHelper.attached_ token = false ∧ w1 = w) ∧
    ∀ w2 : World, ∃ w3,
      JNIThreadHelper.dtor token self w2 = (Normal (), w3) ∧
      jni_calls w3
      = jni_calls w2 ++
        (if JNIThreadHelper.attached_ token
         then [CallDetachCurrentThread self] else []) ∧
      (JNIThreadHelper.attached_ token = true →
         is_attached (jvm w3) self = false) ∧
      (JNIThreadHelper.attached_ token = false → w3 = w2) ∧
      (is_attached (jvm w) self = true →
         jvm w3 = jvm w2 ∧
         (is_attached (jvm w2) self = true →
            is_attached (jvm w3) self = true)) ∧
      (is_attached (jvm w) self = false →
         is_attached (jvm w2) self = is_attached (jvm w1) self →
         is_attached (jvm w3) self = false).
Proof.
  destruct (ctor_cases p self w) as (token & w1 & E & Hpath).
  pose proof (ctor_path_owner _ _ _ _ _ Hpath) as Hown.
  destruct (ctor_path_frame _ _ _ _ _ Hpath) as (_ & Hjvm & Hinv & _).
  destruct (ctor_path_acquires _ _ _ _ _ Hpath) as (Hfound & Hasked & Hnull).
  exists token, w1. split; [exact E |]. split; [exact Hown |].
  split; [intros Hp; apply Hfound; by apply is_null_false |].
  split; [intros Hp; apply Hasked; by apply is_null_false |].
  split; [intros Hp; apply Hnull; by apply is_null_nullptr |].
  intros w2.
  destruct (dtor_cases token self w2) as (w3 & Ed & _ & Hcalls & Hno & Hyes).
  { rewrite Hjvm. exact Hinv. }
  exists w3. split; [exact Ed |]. split; [exact Hcalls |].
  split; [exact Hyes |]. split; [exact Hno |]. split.
  - intros Ha.
    assert (Hflag : JNIThreadHelper.attached_ token = false).
    { destruct (JNIThreadHelper.attached_ token); [| done].
      destruct Hown as [Hown _]. destruct (Hown eq_refl) as [Hown' _].
      congruence. }
    rewrite (Hno Hflag). done.
  - intros Ha Hscope.
    destruct (JNIThreadHelper.attached_ token) eqn:Hflag.
    + by apply Hyes.
    + rewrite (Hno eq_refl), Hscope.
      destruct (is_attached (jvm w1) self) eqn:Ha1; [| done].
      destruct Hown as [_ Hown]. by specialize (Hown (conj Ha eq_refl)).
Qed.

(** C5, the claim as stated fails: a detector whose [detect] executes
    [throw 42;] makes the guarded call end with that object still in
    flight, after the token has been released. *)
Lemma detectWithThreadSafety_propagates_int :
  ∃ w', ThreadSafeDetector.detectWithThreadSafety
          (ThreadSafeDetector.mk 0x7000%N) int_throwing_detector ()
          3%nat (loaded_world android_vm)
        = (Throw (other_object 42), w') ∧
        jni_calls w'
        = [CallGetEnv 3%nat JNI_VERSION_1_6; CallAttachCurrentThread 3%nat;
           CallDetachCurrentThread 3%nat].
Proof. eexists. split; reflexivity. Qed.

(** C5, amended.  For every detector and frame the guarded call first
    acquires the token.  With an invalid token it logs an error and ends
    as the evaluation of [ResultType{}] ends, without running [detect].
    With a valid token [detect] runs: its result is returned; a
    [std::exception] it throws is caught and logged with its [what()],
    and the call then ends as the evaluation of [ResultType{}] ends; an
    object of any other type it throws leaves the call.  The token is
    released on all these paths.  So an exception that leaves the call is
    either an object thrown by [detect] whose type does not derive from
    [std::exception], or was thrown by the construction of
    [ResultType{}]: a [std::exception] thrown by [detect] never leaves. *)
Theorem detectWithThreadSafety_contains_std_exception {Mat : Type}
  (this : ThreadSafeDetector.obj) (detector : DetectorType Mat) (frame : Mat)
  (self : Thread) (w : World) :
  ∃ token w1,
    JNIThreadHelper.ctor (ThreadSafeDetector.jvm_ this) self w
    = (Normal token, w1) ∧
    (JNIThreadHelper.isValid token = false →
       ThreadSafeDetector.detectWithThreadSafety this detector frame self w
       = ResultType_init detector
           (log_entry (error "Failed to attach thread for detection" []) w1)) ∧
    (JNIThreadHelper.isValid token = true →
       ∀ (outcome : Completion (ResultType detector)) (w2 : World),
         detect detector frame w1 = (outcome, w2) →
         match outcome with
         | Normal r =>
             ∃ w3, JNIThreadHelper.dtor token self w2 = (Normal (), w3) ∧
                   ThreadSafeDetector.detectWithThreadSafety
                     this detector frame self w
                   = (Normal r, w3)
         | Throw (std_exception what) =>
             ∀ (c : Completion (ResultType detector)) (w2' : World),
               ResultType_init detector
                 (log_entry (error "Detection failed: %s" [ArgStr what]) w2)
               = (c, w2') →
               match c with
               | Fault =>
                   ThreadSafeDetector.detectWithThreadSafety
                     this detector frame self w
                   = (Fault, w2')
               | _ =>
                   ∃ w3, JNIThreadHelper.dtor token self w2'
                         = (Normal (), w3) ∧
                         ThreadSafeDetector.detectWithThreadSafety
                           this detector frame self w
                         = (c, w3)
               end
         | Throw (other_object v) =>
             ∃ w3, JNIThreadHelper.dtor token self w2 = (Normal (), w3) ∧
                   ThreadSafeDetector.detectWithThreadSafety
                     this detector frame self w
                   = (Throw (other_object v), w3)
         | Fault =>
             ThreadSafeDetector.detectWithThreadSafety
               this detector frame self w
             = (Fault, w2)
         end) ∧
    (∀ (e : thrown) (w' : World),
       ThreadSafeDetector.detectWithThreadSafety this detector frame self w
       = (Throw e, w') →
       (∃ v w2, JNIThreadHelper.isValid token = true ∧
                detect detector frame w1 = (Throw (other_object v), w2) ∧
                e = other_object v) ∨
       (∃ w0 w0', ResultType_init detector w0 = (Throw e, w0'))).
Proof.
  destruct (ctor_cases (ThreadSafeDetector.jvm_ this) self w)
    as (token & w1 & E & Hpath).
  destruct (ctor_path_frame _ _ _ _ _ Hpath) as (_ & Hjvm & Hinv & Hinvalid).
  pose proof (detect_unfold this detector frame self w token w1 E) as Hcall.
  assert (Hdtor : ∀ w2, ∃ w3,
            JNIThreadHelper.dtor token self w2 = (Normal (), w3)).
  { intros w2. destruct (dtor_cases token self w2) as (w3 & Ed & _).
    - rewrite Hjvm. exact Hinv.
    - by exists w3. }
  exists token, w1. split; [exact E |].
  (* the two branches of the guarded region first, the summary after *)
  match goal with |- ?bad ∧ ?good ∧ _ =>
    assert (Hbad : bad); [| assert (Hgood : good)] end.
  - intros Hv. rewrite Hcall, Hv. cbn [negb].
    unfold with_local. run_M.
    destruct (ResultType_init detector _) as [[v | e |] wE] eqn:Einit;
      [| | reflexivity];
      rewrite (dtor_not_owner token self) by auto; reflexivity.
  - intros Hv outcome w2 Hd. rewrite Hcall, Hv. cbn [negb].
    unfold with_local, try_catch_std_exception. rewrite Hd.
    destruct outcome as [r | [what | v] |].
    + destruct (Hdtor w2) as (w3 & Ed). exists w3. by rewrite Ed.
    + intros c w2' Hinit. run_M.
      unfold log_entry, error in Hinit. cbn in Hinit. rewrite Hinit.
      destruct c as [v | e |]; [| | reflexivity];
        destruct (Hdtor w2') as (w3 & Ed); exists w3; by rewrite Ed.
    + destruct (Hdtor w2) as (w3 & Ed). exists w3. by rewrite Ed.
    + reflexivity.
  - split; [exact Hbad |]. split; [exact Hgood |].
    intros e w' Hthrow.
    destruct (JNIThreadHelper.isValid token) eqn:Hv.
    + pose proof (Hgood eq_refl _ _
                    (surjective_pairing (detect detector frame w1))) as Hrun.
      destruct (detect detector frame w1) as [[r | [what | v] |] w2] eqn:Hd;
        cbn [fst snd] in Hrun.
      * destruct Hrun as (w3 & _ & Hrun). congruence.
      * right.
        specialize (Hrun _ _ (surjective_pairing
          (ResultType_init detector
             (log_entry (error "Detection failed: %s" [ArgStr what]) w2)))).
        destruct (ResultType_init detector
                    (log_entry (error "Detection failed: %s" [ArgStr what]) w2))
          as [[v | e' |] w2'] eqn:Einit; cbn [fst snd] in Hrun.
        -- destruct Hrun as (w3 & _ & Hrun). congruence.
        -- destruct Hrun as (w3 & _ & Hrun).
           assert (e' = e) as -> by congruence. by eexists _, _.
        -- congruence.
      * left. destruct Hrun as (w3 & _ & Hrun).
        exists v, w2. split; [done |]. split; [done | congruence].
      * congruence.
    + right. rewrite (Hbad eq_refl) in Hthrow. by eexists _, _.
Qed.


(** * Further properties of the code *)

(** ** Helper facts *)

Lemma detach_after_attach (vm : JavaVM) (t : Thread) :
  is_attached vm t = false →
  snd (DetachCurrentThread
         (set_attached_threads ({[t]} ∪ attached_threads vm) vm) t)
  = vm.
Proof.
  intros Ha. unfold DetachCurrentThread.
  rewrite is_attached_attach_self. cbn.
  destruct vm as [s vs st]. unfold set_attached_threads; cbn. f_equal.
  unfold is_attached in Ha; cbn in Ha. apply bool_decide_eq_false in Ha.
  apply set_eq. intros x.
  rewrite elem_of_difference, elem_of_union, elem_of_singleton.
  split; [tauto |]. intros Hx. split; [tauto | congruence].
Qed.

Lemma ctor_path_release (p : pointer) (self : Thread) (w : World)
  (token : JNIThreadHelper.obj) (w1 : World) :
  ctor_path p self w token w1 →
  ∀ w2 : World, jvm w2 = jvm w1 →
  ∃ w3, JNIThreadHelper.dtor token self w2 = (Normal (), w3) ∧
        jvm w3 = jvm w ∧ g_jvm w3 = g_jvm w2.
Proof.
  intros Hpath w2 Hvm.
  destruct Hpath as [Hp | Hp Ha | Hp Ha Hs | Hp Ha Hs].
  - eexists. split; [by apply dtor_not_owner |]. done.
  - eexists. split; [by apply dtor_not_owner |]. done.
  - eexists. split; [by apply dtor_owner |]. cbn in *.
    rewrite Hvm. split; [by apply detach_after_attach | done].
  - eexists. split; [by apply dtor_not_owner |]. done.
Qed.

Lemma ctor_path_valid (p : pointer) (self : Thread) (w : World)
  (token : JNIThreadHelper.obj) (w1 : World) :
  ctor_path p self w token w1 →
  JNIThreadHelper.isValid token = negb (no_environment p (jvm w) self) ∧
  (JNIThreadHelper.isValid token = true →
     is_attached (jvm w1) self = true ∧
     JNIThreadHelper.getEnv token = JNIEnv_of self) ∧
  (JNIThreadHelper.isValid token = false → jvm w1 = jvm w).
Proof.
  unfold no_environment, JNIThreadHelper.isValid, JNIThreadHelper.getEnv.
  intros [Hp | Hp Ha | Hp Ha Hs | Hp Ha Hs]; cbn; rewrite Hp; cbn.
  - done.
  - rewrite Ha. unfold GetEnv. rewrite Ha.
    destruct (supports (jvm w) JNI_VERSION_1_6); cbn;
      rewrite ?JNIEnv_of_not_null; done.
  - rewrite Ha, Hs, JNIEnv_of_not_null. cbn.
    split; [done |]. split; [| done].
    intros _. split; [apply is_attached_attach_self | done].
  - rewrite Ha. destruct (Z.eqb_spec (attach_status (jvm w)) JNI_OK); done.
Qed.

(** ** The scoped token *)

(** X1.  The token is valid exactly when the pointer is not null and the
    machine could give an environment (the thread was attached and the
    machine has the JNI 1.6 interface, or it was not attached and the
    machine accepted the attachment).  A valid token means the thread is
    attached, and [getEnv] is that thread's environment; an invalid token
    owns no attachment and its construction left the machine as it was. *)
Theorem token_validity (p : pointer) (self : Thread) (w : World) :
  ∃ token w1,
    JNIThreadHelper.ctor p self w = (Normal token, w1) ∧
    JNIThreadHelper.isValid token = negb (no_environment p (jvm w) self) ∧
    (JNIThreadHelper.isValid token = true →
       is_attached (jvm w1) self = true ∧
       JNIThreadHelper.getEnv token = JNIEnv_of self ∧
       JNIThreadHelper.getEnv token ≠ nullptr) ∧
    (JNIThreadHelper.isValid token = false →
       JNIThreadHelper.getEnv token = nullptr ∧
       JNIThreadHelper.attached_ token = false ∧
       jvm w1 = jvm w).
Proof.
  destruct (ctor_cases p self w) as (token & w1 & E & Hpath).
  destruct (ctor_path_valid _ _ _ _ _ Hpath) as (Hiff & Hyes & Hno).
  destruct (ctor_path_frame _ _ _ _ _ Hpath) as (_ & _ & _ & Hflag).
  exists token, w1. split; [exact E |]. split; [exact Hiff |]. split.
  - intros Hv. destruct (Hyes Hv) as (Ha & Henv).
    split; [exact Ha |]. split; [exact Henv |].
    rewrite Henv. apply is_null_false, JNIEnv_of_not_null.
  - intros Hv. split; [| split; [by apply Hflag | by apply Hno]].
    unfold JNIThreadHelper.isValid in Hv. apply negb_false_iff in Hv.
    by apply is_null_nullptr.
Qed.

(** X2.  Acquiring a token and releasing it right away always returns and
    gives back the machine exactly as it was: the set of attached threads,
    of every thread, is the one before the acquisition; [g_jvm] is
    unchanged. *)
Theorem token_round_trip (p : pointer) (self : Thread) (w : World) :
  ∃ w', perform (OpScopedToken p self) w = (Normal (), w') ∧
        jvm w' = jvm w ∧ g_jvm w' = g_jvm w.
Proof.
  destruct (ctor_cases p self w) as (token & w1 & E & Hpath).
  destruct (ctor_path_release _ _ _ _ _ Hpath w1 eq_refl)
    as (w3 & Ed & Hvm & Hg).
  destruct (ctor_path_frame _ _ _ _ _ Hpath) as (Hg1 & _).
  exists w3. cbn [perform]. unfold mbind, M_bind, bind. rewrite E.
  split; [exact Ed |]. split; [exact Hvm | congruence].
Qed.

(** ** The entry points *)

(** X6.  What the value returned by attach tells the caller: it is
    [JNI_TRUE] exactly when [g_jvm] is set and the calling thread is
    attached when the call returns, and it is [JNI_FALSE] exactly when the
    call appended an error-level line to the log. *)
Theorem attach_result_meaning (self : Thread) (w : World) :
  ∃ r w',
    attachCurrentThread self w = (Normal r, w') ∧
    (r = JNI_TRUE ∨ r = JNI_FALSE) ∧
    (r = JNI_TRUE ↔
       g_jvm w ≠ nullptr ∧ is_attached (jvm w') self = true) ∧
    (r = JNI_FALSE ↔
       ∃ e, logcat w' = logcat w ++ [e] ∧ is_error e = true).
Proof.
  assert (Hnil : ∀ (l : list Entry) e, l ≠ l ++ [e]).
  { intros l e Heq. apply (f_equal length) in Heq.
    rewrite length_app in Heq. cbn in Heq. lia. }
  destruct (is_null (g_jvm w)) eqn:H.
  { eexists _, _. split; [by apply attach_unset |]. cbn.
    split; [by right |]. split.
    - split; [done |]. intros [Hset _]. apply is_null_false in Hset. congruence.
    - split; [| done]. intros _. by eexists. }
  assert (Hset : g_jvm w ≠ nullptr) by by apply is_null_false.
  destruct (is_attached (jvm w) self) eqn:Ha.
  { eexists _, _. split; [by apply attach_already |]. cbn.
    split; [by left |]. split; [done |].
    split; [done |]. intros (e & He & _). by apply Hnil in He. }
  destruct (Z.eq_dec (attach_status (jvm w)) JNI_OK) as [Hs | Hs].
  - eexists _, _. split; [by apply attach_accepted |]. cbn.
    split; [by left |]. split.
    + split; [| done]. intros _. split; [done | apply is_attached_attach_self].
    + split; [done |]. intros (e & He & Herr).
      apply app_inv_head in He. injection He as <-. done.
  - eexists _, _. split; [by apply attach_rejected |]. cbn.
    split; [by right |]. split.
    + split; [done |]. intros [_ Ha']. congruence.
    + split; [| done]. intros _. by eexists.
Qed.

(** X7.  The attach and detach entry points do not track who attached the
    thread.  With [g_jvm] set, attach followed by detach always returns
    and leaves the calling thread not attached, also when the thread was
    attached before the pair ran (no attachment was requested then, yet
    the thread is detached).  When the thread was not attached before, the
    pair gives back the machine exactly as it was. *)
Theorem attach_then_detach_always_detaches (self : Thread) (w : World) :
  g_jvm w ≠ nullptr →
  ∃ r w',
    attach_then_detach self w = (Normal r, w') ∧
    is_attached (jvm w') self = false ∧
    (is_attached (jvm w) self = false → jvm w' = jvm w) ∧
    (is_attached (jvm w) self = true →
       r = JNI_TRUE ∧
       jni_calls w'
       = jni_calls w ++
         [CallGetEnv self JNI_VERSION_1_6; CallDetachCurrentThread self]).
Proof.
  intros H. apply is_null_false in H.
  unfold attach_then_detach, mbind, M_bind, bind.
  destruct (is_attached (jvm w) self) eqn:Ha.
  { rewrite attach_already by done. rewrite detach_set by done. cbn.
    eexists _, _. split; [reflexivity |]. cbn.
    split; [apply DetachCurrentThread_self |]. split; [done |].
    intros _. split; [done |]. by rewrite <- app_assoc. }
  destruct (Z.eq_dec (attach_status (jvm w)) JNI_OK) as [Hs | Hs].
  - rewrite attach_accepted by done. rewrite detach_set by done. cbn.
    eexists _, _. split; [reflexivity |]. cbn.
    split; [apply DetachCurrentThread_self |].
    split; [| done]. intros _. by apply detach_after_attach.
  - rewrite attach_rejected by done. rewrite detach_set by done. cbn.
    eexists _, _. split; [reflexivity |]. cbn.
    split; [apply DetachCurrentThread_self |].
    split; [| done]. intros _. by apply DetachCurrentThread_unattached.
Qed.

Lemma attach_then_detach_always_detaches_witness :
  g_jvm (loaded_world busy_vm) ≠ nullptr ∧
  is_attached (jvm (loaded_world busy_vm)) 3%nat = true ∧
  ∃ w', attach_then_detach 3%nat (loaded_world busy_vm)
        = (Normal JNI_TRUE, w') ∧
        is_attached (jvm w') 3%nat = false ∧
        jni_calls w'
        = [CallGetEnv 3%nat JNI_VERSION_1_6; CallDetachCurrentThread 3%nat].
Proof.
  split; [discriminate |]. split; [reflexivity |].
  destruct (attach_then_detach_always_detaches 3%nat (loaded_world busy_vm))
    as (r & w' & Hrun & Hoff & _ & Hwas); [discriminate |].
  destruct (Hwas eq_refl) as (-> & Hcalls).
  exists w'. split; [exact Hrun |]. split; [exact Hoff | exact Hcalls].
Defined.

(** ** The guarded call *)

Lemma with_local_release {B : Type} (p : pointer) (self : Thread) (w : World)
  (token : JNIThreadHelper.obj) (w1 : World) (body : M B)
  (r : Completion B) (w2 : World) :
  ctor_path p self w token w1 →
  body w1 = (r, w2) →
  r ≠ Fault →
  jvm w2 = jvm w1 →
  ∃ w3, with_local (JNIThreadHelper.dtor token self) body w1 = (r, w3) ∧
        jvm w3 = jvm w ∧ g_jvm w3 = g_jvm w2.
Proof.
  intros Hpath Hbody Hr Hvm.
  destruct (ctor_path_release _ _ _ _ _ Hpath w2 Hvm) as (w3 & Ed & Hvm3 & Hg).
  exists w3. unfold with_local. rewrite Hbody.
  destruct r; [by rewrite Ed | by rewrite Ed | done].
Qed.

(** X3.  A guarded call is balanced.  When the detector's own code, its
    [detect] and the construction of [ResultType{}], leaves the machine
    alone and does not go wrong, then however [detect] and the
    construction end (a result, a [std::exception], another thrown
    object) and whether or not the token was valid, the machine after the
    call is exactly the machine before it: an attachment the call made
    has been undone, an attachment it found is still there. *)
Theorem guarded_call_restores_machine {Mat : Type}
  (this : ThreadSafeDetector.obj) (detector : DetectorType Mat) (frame : Mat)
  (self : Thread) (w : World) :
  (∀ w0 : World,
     fst (detect detector frame w0) ≠ Fault ∧
     jvm (snd (detect detector frame w0)) = jvm w0) →
  (∀ w0 : World,
     fst (ResultType_init detector w0) ≠ Fault ∧
     jvm (snd (ResultType_init detector w0)) = jvm w0) →
  fst (ThreadSafeDetector.detectWithThreadSafety this detector frame self w)
  ≠ Fault ∧
  jvm (snd (ThreadSafeDetector.detectWithThreadSafety
              this detector frame self w))
  = jvm w.
Proof.
  intros Hdet Hinit.
  destruct (ctor_cases (ThreadSafeDetector.jvm_ this) self w)
    as (token & w1 & E & Hpath).
  rewrite (detect_unfold this detector frame self w token w1 E).
  match goal with |- context [with_local _ ?b w1] => set (body := b) end.
  assert (Hafter : ∀ (e : Entry) (w0 : World), ∃ r w2,
            (LOGE (fmt e) (args e) ;; ResultType_init detector) w0 = (r, w2) ∧
            r ≠ Fault ∧ jvm w2 = jvm w0).
  { intros e w0. run_M.
    match goal with |- context [ResultType_init detector ?wl] =>
      destruct (Hinit wl) as (Hok & Hsame);
      destruct (ResultType_init detector wl) as [r w2] end.
    cbn in Hok, Hsame. by exists r, w2. }
  assert (∃ r w2, body w1 = (r, w2) ∧ r ≠ Fault ∧ jvm w2 = jvm w1)
    as (r & w2 & Hbody & Hr & Hvm).
  { subst body. destruct (JNIThreadHelper.isValid token); cbn [negb].
    - destruct (Hdet w1) as (Hok & Hsame).
      unfold try_catch_std_exception.
      destruct (detect detector frame w1) as [[r0 | [what | v] |] w2];
        cbn in Hok, Hsame.
      + by eexists _, _.
      + destruct (Hafter (error "Detection failed: %s" [ArgStr what]) w2)
          as (r & w3 & Hrun & Hr & Hvm).
        exists r, w3. split; [exact Hrun |]. split; [exact Hr | congruence].
      + by eexists _, _.
      + done.
    - exact (Hafter (error "Failed to attach thread for detection" []) w1). }
  destruct (with_local_release _ _ _ _ _ body r w2 Hpath Hbody Hr Hvm)
    as (w3 & Erun & Hvm3 & _).
  rewrite Erun. done.
Qed.

Lemma guarded_call_restores_machine_witness :
  (∀ w0 : World,
     fst (detect failing_detector () w0) ≠ Fault ∧
     jvm (snd (detect failing_detector () w0)) = jvm w0) ∧
  (∀ w0 : World,
     fst (ResultType_init failing_detector w0) ≠ Fault ∧
     jvm (snd (ResultType_init failing_detector w0)) = jvm w0) ∧
  jvm (snd (ThreadSafeDetector.detectWithThreadSafety
              (ThreadSafeDetector.mk 0x7000%N) failing_detector ()
              3%nat (loaded_world android_vm)))
  = android_vm.
Proof.
  assert (H : ∀ w0 : World,
            fst (detect failing_detector () w0) ≠ Fault ∧
            jvm (snd (detect failing_detector () w0)) = jvm w0).
  { intros w0. split; [discriminate | reflexivity]. }
  assert (H' : ∀ w0 : World,
            fst (ResultType_init failing_detector w0) ≠ Fault ∧
            jvm (snd (ResultType_init failing_detector w0)) = jvm w0).
  { intros w0. split; [discriminate | reflexivity]. }
  split; [exact H |]. split; [exact H' |].
  exact (proj2 (guarded_call_restores_machine
                  (ThreadSafeDetector.mk 0x7000%N) failing_detector ()
                  3%nat (loaded_world android_vm) H H')).
Defined.

(** X4.  [detect] only ever runs on an attached thread.  Replacing the
    detector by one that goes wrong wherever the calling thread is not
    attached changes nothing about a guarded call: same completion, same
    world, for every pointer, machine and detector. *)
Theorem detect_runs_only_attached {Mat : Type}
  (this : ThreadSafeDetector.obj) (detector : DetectorType Mat) (frame : Mat)
  (self : Thread) (w : World) :
  ThreadSafeDetector.detectWithThreadSafety
    this (attached_only self detector) frame self w
  = ThreadSafeDetector.detectWithThreadSafety this detector frame self w.
Proof.
  destruct (ctor_cases (ThreadSafeDetector.jvm_ this) self w)
    as (token & w1 & E & Hpath).
  rewrite (detect_unfold this detector frame self w token w1 E).
  rewrite (detect_unfold this (attached_only self detector) frame self w
             token w1 E).
  destruct (ctor_path_valid _ _ _ _ _ Hpath) as (_ & Hyes & _).
  destruct (JNIThreadHelper.isValid token); cbn [negb].
  - destruct (Hyes eq_refl) as (Ha & _).
    unfold with_local, try_catch_std_exception. cbn. by rewrite Ha.
  - reflexivity.
Qed.

(** X5.  When the token of a [ThreadSafeDetector] cannot obtain an
    environment (null pointer, no JNI 1.6 interface on an attached thread,
    attachment rejected), every guarded call ends exactly as the
    evaluation of [ResultType{}] ends, with its value or with what its
    construction throws.  That evaluation starts in a world that is the
    same for every detector and frame, so [detect] was not run; in that
    world the machine and [g_jvm] are as before the call and the last log
    line is the error that reports the failure.  Nothing runs after it. *)
Theorem guarded_call_without_environment {Mat : Type} (p : pointer)
  (self : Thread) (w : World) :
  no_environment p (jvm w) self = true →
  ∃ wE,
    (∀ (detector : DetectorType Mat) (frame : Mat),
       construct_and_detect p detector frame self w
       = ResultType_init detector wE) ∧
    jvm wE = jvm w ∧ g_jvm wE = g_jvm w ∧
    last (logcat wE)
    = Some (error "Failed to attach thread for detection" []).
Proof.
  intros Hno.
  set (wA := log_entry (info "ThreadSafeDetector initialized") w).
  destruct (ctor_cases p self wA) as (token & w1 & E & Hpath).
  destruct (ctor_path_valid _ _ _ _ _ Hpath) as (Hiff & _ & Hsame).
  destruct (ctor_path_frame _ _ _ _ _ Hpath) as (Hg & _ & _ & Hflag).
  assert (Hv : JNIThreadHelper.isValid token = false).
  { rewrite Hiff. subst wA. cbn. by rewrite Hno. }
  exists (log_entry (error "Failed to attach thread for detection" []) w1).
  split; [| split; [| split]].
  - intros detector frame. unfold construct_and_detect.
    unfold mbind at 1. unfold M_bind, bind.
    unfold ThreadSafeDetector.ctor. run_M. fold (info "ThreadSafeDetector initialized").
    change (mkWorld (g_jvm w) (jvm w)
              (logcat w ++ [info "ThreadSafeDetector initialized"])
              (jni_calls w)) with wA.
    rewrite (detect_unfold (ThreadSafeDetector.mk p) detector frame self wA
               token w1 E).
    rewrite Hv. cbn [negb]. unfold with_local. run_M.
    destruct (ResultType_init detector _) as [[v | e |] wE] eqn:Einit;
      [| | reflexivity];
      rewrite (dtor_not_owner token self) by auto; reflexivity.
  - cbn. by rewrite Hsame.
  - cbn. exact Hg.
  - cbn. apply last_snoc.
Qed.

Lemma guarded_call_without_environment_witness :
  no_environment 0x7000%N (jvm (loaded_world refusing_vm)) 3%nat = true ∧
  ∃ w', construct_and_detect 0x7000%N returning_detector () 3%nat
          (loaded_world refusing_vm)
        = (Normal 0, w') ∧
        jvm w' = refusing_vm.
Proof.
  split; [reflexivity |].
  destruct (@guarded_call_without_environment unit 0x7000%N 3%nat
              (loaded_world refusing_vm))
    as (w' & Hrun & Hvm & _); [reflexivity |].
  exists w'. split; [exact (Hrun returning_detector ()) | exact Hvm].
Defined.

(** A result type whose default constructor throws: over a null pointer
    the guarded call ends with that exception, and so does a call whose
    [detect] failed on an attached thread. *)
Example throwing_ResultType_leaves_call :
  fst (construct_and_detect nullptr throwing_result_detector () 3%nat
         (initial_world android_vm))
  = Throw (std_exception "no default result") ∧
  fst (construct_and_detect 0x7000%N throwing_result_detector () 3%nat
         (loaded_world android_vm))
  = Throw (std_exception "no default result").
Proof. split; vm_compute; reflexivity. Qed.

(** ** Threads do not interfere *)

Lemma perform_isolated (op : Operation) (t : Thread) (w : World) :
  op_thread op ≠ t →
  ∃ w', perform op w = (Normal (), w') ∧
        is_attached (jvm w') t = is_attached (jvm w) t.
Proof.
  intros Hne.
  destruct op as [self | self | self | p self]; cbn in Hne; cbn [perform].
  - unfold mbind, M_bind, bind.
    destruct (is_null (g_jvm w)) eqn:H.
    { rewrite attach_unset by done. by eexists. }
    destruct (is_attached (jvm w) self) eqn:Ha.
    { rewrite attach_already by done. by eexists. }
    destruct (Z.eq_dec (attach_status (jvm w)) JNI_OK) as [Hs | Hs].
    + rewrite attach_accepted by done. eexists. split; [reflexivity |].
      cbn. by apply is_attached_attach_other.
    + rewrite attach_rejected by done. by eexists.
  - destruct (is_null (g_jvm w)) eqn:H.
    + rewrite detach_unset by done. by eexists.
    + rewrite detach_set by done. eexists. split; [reflexivity |].
      cbn. by apply DetachCurrentThread_other.
  - destruct (query_cases self w) as (r & w' & E & _ & Hvm & _).
    exists w'. unfold mbind, M_bind, bind. rewrite E. by rewrite Hvm.
  - destruct (ctor_cases p self w) as (token & w1 & E & Hpath).
    destruct (ctor_path_release _ _ _ _ _ Hpath w1 eq_refl)
      as (w3 & Ed & Hvm & _).
    exists w3. unfold mbind, M_bind, bind. rewrite E.
    split; [exact Ed | by rewrite Hvm].
Qed.

(** X9.  Whatever sequence of operations (attach, detach, query, scoped
    tokens) other threads perform, in a loaded or an unloaded process, it
    runs to the end and does not change whether thread [t] is attached. *)
Theorem other_threads_untouched (ops : list Operation) (t : Thread)
  (w : World) :
  Forall (λ op, op_thread op ≠ t) ops →
  ∃ w', perform_all ops w = (Normal (), w') ∧
        is_attached (jvm w') t = is_attached (jvm w) t.
Proof.
  intros Hops. revert w.
  induction Hops as [| op ops Hop _ IH]; intros w.
  - by exists w.
  - destruct (perform_isolated op t w Hop) as (w1 & E1 & H1).
    destruct (IH w1) as (w' & E & H).
    exists w'. cbn [perform_all]. unfold mbind, M_bind, bind. rewrite E1.
    split; [exact E | congruence].
Qed.

Lemma other_threads_untouched_witness :
  Forall (λ op, op_thread op ≠ 5%nat)
    [OpAttach 7%nat; OpScopedToken 0x7000%N 9%nat; OpDetach 3%nat;
     OpIsAttached 3%nat] ∧
  ∃ w', perform_all
          [OpAttach 7%nat; OpScopedToken 0x7000%N 9%nat; OpDetach 3%nat;
           OpIsAttached 3%nat] (loaded_world busy_vm)
        = (Normal (), w') ∧
        is_attached (jvm w') 5%nat = true.
Proof.
  assert (H : Forall (λ op, op_thread op ≠ 5%nat)
                [OpAttach 7%nat; OpScopedToken 0x7000%N 9%nat;
                 OpDetach 3%nat; OpIsAttached 3%nat]).
  { repeat constructor; discriminate. }
  split; [exact H |].
  destruct (other_threads_untouched _ 5%nat (loaded_world busy_vm) H)
    as (w' & Hrun & Hsame).
  exists w'. split; [exact Hrun |]. rewrite Hsame. reflexivity.
Defined.


(** ** What the operations leave behind *)

Lemma perform_appends (op : Operation) (w : World) :
  ∃ w' new calls,
    perform op w = (Normal (), w') ∧
    logcat w' = logcat w ++ new ∧
    Forall (λ e, tag e = LOG_TAG) new ∧
    jni_calls w' = jni_calls w ++ calls ∧
    Forall (λ c, call_thread c = op_thread op) calls.
Proof.
  destruct op as [self | self | self | p self]; cbn [perform op_thread].
  - unfold mbind, M_bind, bind.
    destruct (is_null (g_jvm w)) eqn:H.
    { rewrite attach_unset by done.
      eexists _, [_], []. split; [reflexivity |]. cbn.
      rewrite app_nil_r. repeat split; repeat constructor. }
    destruct (is_attached (jvm w) self) eqn:Ha.
    { rewrite attach_already by done.
      eexists _, [], [_]. split; [reflexivity |]. cbn.
      rewrite app_nil_r. repeat split; repeat constructor. }
    destruct (Z.eq_dec (attach_status (jvm w)) JNI_OK) as [Hs | Hs].
    + rewrite attach_accepted by done.
      eexists _, [_], [_; _]. split; [reflexivity |]. cbn.
      repeat split; repeat constructor.
    + rewrite attach_rejected by done.
      eexists _, [_], [_; _]. split; [reflexivity |]. cbn.
      repeat split; repeat constructor.
  - destruct (is_null (g_jvm w)) eqn:H.
    + rewrite detach_unset by done.
      eexists _, [], []. split; [reflexivity |].
      rewrite !app_nil_r. repeat split; constructor.
    + rewrite detach_set by done.
      eexists _, [_], [_]. split; [reflexivity |]. cbn.
      repeat split; repeat constructor.
  - unfold mbind, M_bind, bind.
    destruct (is_null (g_jvm w)) eqn:H.
    + rewrite query_unset by done.
      eexists _, [], []. split; [reflexivity |].
      rewrite !app_nil_r. repeat split; constructor.
    + rewrite query_set by done.
      eexists _, [], [_]. split; [reflexivity |]. cbn.
      rewrite app_nil_r. repeat split; repeat constructor.
  - unfold mbind, M_bind, bind.
    destruct (is_null p) eqn:Hp.
    { rewrite ctor_null by done. rewrite dtor_not_owner by done.
      eexists _, [], []. split; [reflexivity |].
      rewrite !app_nil_r. repeat split; constructor. }
    destruct (is_attached (jvm w) self) eqn:Ha.
    { rewrite ctor_already by done. rewrite dtor_not_owner by done.
      eexists _, [], [_]. split; [reflexivity |]. cbn.
      rewrite app_nil_r. repeat split; repeat constructor. }
    destruct (Z.eq_dec (attach_status (jvm w)) JNI_OK) as [Hs | Hs].
    + rewrite ctor_accepted by done. rewrite dtor_owner by done.
      eexists _, [_; _], [_; _; _]. split; [reflexivity |]. cbn.
      rewrite <- !app_assoc. cbn.
      repeat split; repeat constructor.
    + rewrite ctor_rejected by done. rewrite dtor_not_owner by done.
      eexists _, [_], [_; _]. split; [reflexivity |]. cbn.
      repeat split; repeat constructor.
Qed.

(** X8.  The operations only ever append.  After any sequence of attach,
    detach, query and scoped-token operations the earlier log lines and
    the earlier calls are still there in order; every line added carries
    the tag [LOG_TAG], and every call added was made for the thread of
    one of the operations performed. *)
Theorem operations_append_only (ops : list Operation) (w : World) :
  ∃ w' new calls,
    perform_all ops w = (Normal (), w') ∧
    logcat w' = logcat w ++ new ∧
    Forall (λ e, tag e = LOG_TAG) new ∧
    jni_calls w' = jni_calls w ++ calls ∧
    Forall (λ c, call_thread c ∈ map op_thread ops) calls.
Proof.
  revert w. induction ops as [| op ops IH]; intros w.
  - exists w, [], []. rewrite !app_nil_r. repeat split; constructor.
  - destruct (perform_appends op w)
      as (w1 & new1 & calls1 & E1 & Hlog1 & Htag1 & Hcalls1 & Hth1).
    destruct (IH w1) as (w' & new & calls & E & Hlog & Htag & Hcalls & Hth).
    exists w', (new1 ++ new), (calls1 ++ calls).
    cbn [perform_all]. unfold mbind, M_bind, bind. rewrite E1.
    split; [exact E |].
    split; [by rewrite Hlog, Hlog1, app_assoc |].
    split; [by apply Forall_app |].
    split; [by rewrite Hcalls, Hcalls1, app_assoc |].
    apply Forall_app. split.
    + eapply Forall_impl; [exact Hth1 |]. cbn. intros c ->. by left.
    + eapply Forall_impl; [exact Hth |]. cbn. intros c Hc. by right.
Qed.

(** ** The query and the scoped token together *)

(** X10.  When the query has just returned [JNI_TRUE], a token acquired
    over [g_jvm] on the same thread is valid and only borrows the
    attachment: it did not attach, acquiring it left the machine as it
    was, and releasing it does nothing at all. *)
Theorem query_true_token_borrows (self : Thread) (w w' : World) :
  isCurrentThreadAttached self w = (Normal JNI_TRUE, w') →
  ∃ token w1,
    JNIThreadHelper.ctor (g_jvm w') self w' = (Normal token, w1) ∧
    JNIThreadHelper.isValid token = true ∧
    JNIThreadHelper.attached_ token = false ∧
    jvm w1 = jvm w ∧
    ∀ w2 : World, JNIThreadHelper.dtor token self w2 = (Normal (), w2).
Proof.
  intros Hq.
  destruct (query_true_iff self w JNI_TRUE w' Hq) as (_ & Hiff).
  destruct Hiff as [Hiff _]. destruct (Hiff eq_refl) as (Hset & Hvalid).
  apply is_null_false in Hset.
  rewrite query_set in Hq by done. injection Hq as _ <-.
  pose proof Hvalid as Hok. unfold valid_environment in Hok.
  apply GetEnv_env_iff, GetEnv_OK_iff in Hok as (Ha & _).
  eexists _, _. split; [by apply ctor_already |]. cbn.
  split; [| split; [done | split; [done |]]].
  - unfold JNIThreadHelper.isValid; cbn.
    unfold valid_environment in Hvalid. by rewrite Hvalid.
  - intros w2. reflexivity.
Qed.

Lemma query_true_token_borrows_witness :
  ∃ w', isCurrentThreadAttached 3%nat (loaded_world busy_vm)
        = (Normal JNI_TRUE, w') ∧
        ∃ token w1,
          JNIThreadHelper.ctor (g_jvm w') 3%nat w' = (Normal token, w1) ∧
          JNIThreadHelper.isValid token = true ∧
          JNIThreadHelper.attached_ token = false.
Proof.
  eexists. split; [reflexivity |].
  destruct (query_true_token_borrows 3%nat (loaded_world busy_vm) _ eq_refl)
    as (token & w1 & Hctor & Hvalid & Hflag & _).
  exists token, w1. split; [exact Hctor |]. split; [exact Hvalid | exact Hflag].
Defined.
